(** * S_and_P_analysis: the concurrent downloader of [src/download_data.py]

    A shallow embedding of the class [StockInfoDownloader]: its constructor,
    the per-symbol task [download_stock] and the orchestrator
    [begin_download].  The worker threads and the main thread are modelled as
    an interleaving of atomic steps, one per source line that touches shared
    state; the scheduler is an explicit list of choices, so that every run can
    be evaluated and every property is stated over all schedules.

    The three collaborators outside the program are inputs of the model, each
    with its failures: the page of symbols read on lines 57-60 is a list or an
    exception, the provider [yf.download] returns a frame or raises, and the
    SQL engine accepts a frame or raises and leaves the table in some state.
    The lines of the program that can raise on the frames they are given
    (44, 45 and 69) raise in the model as they do in pandas. *)

From Stdlib Require Import ZArith QArith Lia Ascii String.
From stdpp Require Import base list strings.

Local Open Scope Z_scope.

(** ** Exceptions and results *)

(** The exceptions that matter here: [ValueError] is what [datetime(...)],
    [reset_index] and [pd.concat] raise; [KeyError] is what selecting a
    column that a frame does not have raises; [Exception] stands for anything
    that [pd.read_html], the provider call [yf.download] or [to_sql] may
    raise. *)
Inductive exn : Type :=
| ValueError (msg : string)
| KeyError (key : string)
| Exception (msg : string).

Inductive result (A : Type) : Type :=
| Ok (a : A)
| Raise (e : exn).
Arguments Ok {A} a.
Arguments Raise {A} e.

(** ** Python's [datetime] and [date] *)

Record datetime : Type := mk_datetime {
  year : Z; month : Z; day : Z;
  hour : Z; minute : Z; second : Z; microsecond : Z
}.

Record date : Type := mk_date { d_year : Z; d_month : Z; d_day : Z }.

Definition MINYEAR : Z := 1.
Definition MAXYEAR : Z := 9999.

Definition is_leap (y : Z) : bool :=
  (y mod 4 =? 0) && (negb (y mod 100 =? 0) || (y mod 400 =? 0)).

Definition days_in_month (y m : Z) : Z :=
  if (m =? 2) && is_leap y then 29
  else if m =? 2 then 28
  else if (m =? 4) || (m =? 6) || (m =? 9) || (m =? 11) then 30
  else 31.

(** The field check of the constructor: year, then month, then day. *)
Definition check_date_fields (y m d : Z) : result unit :=
  if negb ((MINYEAR <=? y) && (y <=? MAXYEAR)) then
    Raise (ValueError "year is out of range")
  else if negb ((1 <=? m) && (m <=? 12)) then
    Raise (ValueError "month must be in 1..12")
  else if negb ((1 <=? d) && (d <=? days_in_month y m)) then
    Raise (ValueError "day is out of range for month")
  else Ok tt.

(** [datetime(year, month, day)]: the time of day defaults to midnight. *)
Definition datetime_new (y m d : Z) : result datetime :=
  match check_date_fields y m d with
  | Raise e => Raise e
  | Ok _ => Ok (mk_datetime y m d 0 0 0 0)
  end.

(** A well-formed [datetime] object, such as [datetime.now()] returns. *)
Definition valid_datetime (t : datetime) : bool :=
  (MINYEAR <=? year t) && (year t <=? MAXYEAR)
  && (1 <=? month t) && (month t <=? 12)
  && (1 <=? day t) && (day t <=? days_in_month (year t) (month t))
  && (0 <=? hour t) && (hour t <? 24)
  && (0 <=? minute t) && (minute t <? 60)
  && (0 <=? second t) && (second t <? 60)
  && (0 <=? microsecond t) && (microsecond t <? 1000000).

(** [Timestamp.date()], what [.dt.date] applies to every cell. *)
Definition dt_date (t : datetime) : date :=
  mk_date (year t) (month t) (day t).

(** ** Data frames *)

(** The numeric columns of a [yf.download] frame; this program copies them
    and never computes on them. *)
Record prices : Type := mk_prices {
  Open : Q; High : Q; Low : Q; Close : Q; Adj_Close : Q; Volume : Q
}.

(** A row of the provider's frame: its index value, a timestamp, and the
    prices. *)
Record raw_row : Type := mk_raw { r_Date : datetime; r_px : prices }.

(** The provider's frame: the name of its index, [None] when the index has
    no name, and its rows.  A frame of daily prices has its index named
    Date; the frame the provider returns when it has no data need not. *)
Record raw_frame : Type := mk_raw_frame {
  index_name : option string;
  rows : list raw_row
}.

(** After line 41: the column Name is added, the index is as it was. *)
Record tagged_row : Type := mk_tagged {
  t_Date : datetime; t_px : prices; t_Name : string
}.

Record tagged_frame : Type := mk_tagged_frame {
  t_index_name : option string;
  t_rows : list tagged_row
}.

(** After [reset_index]: a fresh integer index, the former index is a
    column.  Its cells are timestamps ([row datetime]) until line 45 makes
    them dates. *)
Record row (D : Type) : Type := mk_row {
  idx : nat; Date : D; px : prices; Name : string
}.
Arguments mk_row {D} idx Date px Name.
Arguments idx {D} r.
Arguments Date {D} r.
Arguments px {D} r.
Arguments Name {D} r.

(** [index_column] is the name of the column that holds the former index. *)
Record reset_frame : Type := mk_reset_frame {
  index_column : string;
  r_rows : list (row datetime)
}.

(** A normalized frame: the columns Date, the prices and Name. *)
Abbreviation frame := (list (row date)).

(** [stock_df['Name'] = stock] *)
Definition set_Name (stock : string) (df : raw_frame) : tagged_frame :=
  mk_tagged_frame (index_name df)
    (fmap (fun r => mk_tagged (r_Date r) (r_px r) stock) (rows df)).

(** The columns of the frame after line 41. *)
Definition columns : list string :=
  ["Open"; "High"; "Low"; "Close"; "Adj Close"; "Volume"; "Name"].

(** [stock_df.reset_index(inplace=True)]: the index becomes a column under
    its name, or under the name index when it has none; a name that is
    already a column is an error. *)
Definition reset_index (df : tagged_frame) : result reset_frame :=
  let name := default "index" (t_index_name df) in
  if existsb (String.eqb name) columns
  then Raise (ValueError ("cannot insert " +:+ name +:+ ", already exists"))
  else Ok (mk_reset_frame name
             (imap (fun i r => mk_row i (t_Date r) (t_px r) (t_Name r)) (t_rows df))).

(** [stock_df['Date'] = pd.to_datetime(stock_df['Date']).dt.date]: selecting
    the column Date raises when the former index was not named Date. *)
Definition to_date_column (df : reset_frame) : result frame :=
  if String.eqb (index_column df) "Date"
  then Ok (fmap (fun r => mk_row (idx r) (dt_date (Date r)) (px r) (Name r)) (r_rows df))
  else Raise (KeyError "Date").

(** Lines 40-47 of [download_stock], on the frame the provider returned. *)
Definition normalize (stock : string) (df : raw_frame) : result frame :=
  match reset_index (set_Name stock df) with
  | Raise e => Raise e
  | Ok df' => to_date_column df'
  end.

(** [pd.concat(df_list, ignore_index=True)]: no frames is an error, otherwise
    the rows in order under a fresh index. *)
Definition pd_concat (dfs : list frame) : result frame :=
  match dfs with
  | [] => Raise (ValueError "No objects to concatenate")
  | _ => Ok (imap (fun i r => mk_row i (Date r) (px r) (Name r)) (concat dfs))
  end.

(** ** Symbols *)

(** [str.replace(old, new)] for a one-character [old]. *)
Fixpoint str_replace (old new : ascii) (s : string) : string :=
  match s with
  | EmptyString => EmptyString
  | String c s' =>
      String (if Ascii.eqb c old then new else c) (str_replace old new s')
  end.

(** Line 60: the Symbol column with every ticker rewritten. *)
Definition make_stock_list (symbols : list string) : list string :=
  fmap (str_replace "."%char "-"%char) symbols.

(** ** The SQL engine *)

(** The engine handed to the constructor.  [table] is the table s_and_p as
    the list of frames written to it with if_exists='replace'.
    [to_sql_raises] tells for which frames the write fails: with which
    exception, and what the failed write leaves of the table. *)
Record sql_engine : Type := mk_engine {
  table : list frame;
  to_sql_raises : frame -> option (exn * list frame)
}.

(** [df.to_sql('s_and_p', con=engine, if_exists='replace')] *)
Definition to_sql (eng : sql_engine) (df : frame) : result unit * sql_engine :=
  match to_sql_raises eng df with
  | None => (Ok tt, mk_engine (table eng ++ [df]) (to_sql_raises eng))
  | Some (e, tbl) => (Raise e, mk_engine tbl (to_sql_raises eng))
  end.

(** ** The downloader object *)

(** The fields assigned by the constructor.  [semaphore] is the counter of
    [threading.Semaphore(1)]. *)
Record StockInfoDownloader : Type := mk_self {
  semaphore : nat;
  current_time : datetime;
  start_time : datetime;
  stock_list : list string;
  engine : sql_engine;
  main_df : frame
}.

(** [StockInfoDownloader(engine)], run when the clock reads [now]. *)
Definition __init__ (eng : sql_engine) (now : datetime)
  : result StockInfoDownloader :=
  match datetime_new (year now - 11) (month now) (day now) with
  | Raise e => Raise e
  | Ok start => Ok (mk_self 1 now start [] eng [])
  end.

Definition with_semaphore (o : StockInfoDownloader) (n : nat) :=
  mk_self n (current_time o) (start_time o) (stock_list o) (engine o) (main_df o).
Definition with_main_df (o : StockInfoDownloader) (df : frame) :=
  mk_self (semaphore o) (current_time o) (start_time o) (stock_list o) (engine o) df.
Definition with_engine (o : StockInfoDownloader) (eng : sql_engine) :=
  mk_self (semaphore o) (current_time o) (start_time o) (stock_list o) eng (main_df o).

(** ** The provider *)

(** [yf.download(stock, start, end)]: returns a frame or raises. *)
Definition provider : Type :=
  string -> datetime -> datetime -> result raw_frame.

(** ** Worker tasks *)

(** Where a call of [download_stock] stands; each constructor is the line it
    is about to execute, with the local [stock_df] where it exists. *)
Inductive task_pc : Type :=
| Queued                                 (* submitted, no worker took it yet *)
| AtAcquire                              (* line 35 *)
| Downloading                            (* lines 36-37, the call is in flight *)
| AtRelease (df : raw_frame)             (* line 38 *)
| AtSetName (df : raw_frame)             (* line 41 *)
| AtResetIndex (df : tagged_frame)       (* line 44 *)
| AtToDate (df : reset_frame)            (* line 45 *)
| Returned (df : frame)                  (* line 47, the future has a result *)
| Raised (e : exn)                       (* line 37 raised e, before the release *)
| RaisedLate (e : exn)                   (* line 44 or 45 raised e, after the release *)
| Cancelled.                             (* the future was cancelled *)

(** [holds] records whether the task owns a slot of the semaphore: set by
    its acquire, cleared by its release. *)
Record task : Type := mk_task { stock : string; pc : task_pc; holds : bool }.

Definition running (t : task) : bool :=
  match pc t with
  | AtAcquire | Downloading | AtRelease _ | AtSetName _
  | AtResetIndex _ | AtToDate _ => true
  | _ => false
  end.

Definition queued (t : task) : bool :=
  match pc t with Queued => true | _ => false end.

(** The exception the future of a task holds, if it holds one. *)
Definition exception (t : task) : option exn :=
  match pc t with
  | Raised e | RaisedLate e => Some e
  | _ => None
  end.

(** [future.cancel()]: only a future that did not start is cancelled. *)
Definition cancel (t : task) : task :=
  match pc t with
  | Queued => mk_task (stock t) Cancelled (holds t)
  | _ => t
  end.

(** The futures after position [i] are cancelled. *)
Definition cancel_after (i : nat) (ts : list task) : list task :=
  take (S i) ts ++ fmap cancel (drop (S i) ts).

(** ** The main thread *)

Inductive main_pc : Type :=
| Collecting (i : nat) (df_list : list frame)  (* lines 65-66, waiting for result i *)
| Unwinding (e : exn)                 (* leaving the with block with e raised *)
| AtConcat (df_list : list frame)     (* line 69 *)
| AtToSql                             (* line 72 *)
| Finished                            (* [begin_download] returned *)
| Failed (e : exn).                   (* [begin_download] raised e *)

(** ** Configurations *)

(** [calls] is the history of provider calls: symbol, start, end. *)
Record state : Type := mk_state {
  self : StockInfoDownloader;
  tasks : list task;
  main : main_pc;
  calls : list (string * datetime * datetime)
}.

Definition with_self (st : state) (o : StockInfoDownloader) :=
  mk_state o (tasks st) (main st) (calls st).
Definition with_tasks (st : state) (ts : list task) :=
  mk_state (self st) ts (main st) (calls st).
Definition with_main (st : state) (m : main_pc) :=
  mk_state (self st) (tasks st) m (calls st).
Definition with_calls (st : state) (cs : list (string * datetime * datetime)) :=
  mk_state (self st) (tasks st) (main st) cs.

Definition set_task (st : state) (i : nat) (t : task) : state :=
  with_tasks st (<[i := t]> (tasks st)).

(** [futures.ThreadPoolExecutor(10)] *)
Definition max_workers : nat := 10.

(** One step of the task at position [i], when it can take one.  A queued
    task starts when it is the first in the queue and a worker is free;
    [acquire] blocks while the counter is zero; an exception raised by the
    provider, by [reset_index] or by the selection of the column Date leaves
    [download_stock] at once. *)
Definition worker_step (P : provider) (st : state) (i : nat) : option state :=
  match tasks st !! i with
  | None => None
  | Some t =>
      match pc t with
      | Queued =>
          if forallb (fun u => negb (queued u)) (take i (tasks st))
             && (length (List.filter running (tasks st)) <? max_workers)%nat
          then Some (set_task st i (mk_task (stock t) AtAcquire (holds t)))
          else None
      | AtAcquire =>
          match semaphore (self st) with
          | O => None
          | S n =>
              Some (set_task (with_self st (with_semaphore (self st) n)) i
                      (mk_task (stock t) Downloading true))
          end
      | Downloading =>
          let o := self st in
          let st' := with_calls st (calls st ++ [(stock t, start_time o, current_time o)]) in
          match P (stock t) (start_time o) (current_time o) with
          | Ok df => Some (set_task st' i (mk_task (stock t) (AtRelease df) (holds t)))
          | Raise e => Some (set_task st' i (mk_task (stock t) (Raised e) (holds t)))
          end
      | AtRelease df =>
          Some (set_task (with_self st (with_semaphore (self st) (S (semaphore (self st))))) i
                  (mk_task (stock t) (AtSetName df) false))
      | AtSetName df =>
          Some (set_task st i (mk_task (stock t) (AtResetIndex (set_Name (stock t) df)) (holds t)))
      | AtResetIndex df =>
          match reset_index df with
          | Ok df' => Some (set_task st i (mk_task (stock t) (AtToDate df') (holds t)))
          | Raise e => Some (set_task st i (mk_task (stock t) (RaisedLate e) (holds t)))
          end
      | AtToDate df =>
          match to_date_column df with
          | Ok df' => Some (set_task st i (mk_task (stock t) (Returned df') (holds t)))
          | Raise e => Some (set_task st i (mk_task (stock t) (RaisedLate e) (holds t)))
          end
      | Returned _ | Raised _ | RaisedLate _ | Cancelled => None
      end
  end.

(** One step of the main thread.  The loop of lines 65-66 takes the results
    in the order of [stock_list]; a result that is an exception is re-raised
    there: the futures after it are cancelled and the with block waits for
    the workers before [begin_download] raises.  The write of line 72
    succeeds or raises as the engine decides. *)
Definition main_step (st : state) : option state :=
  match main st with
  | Collecting i dfs =>
      match tasks st !! i with
      | None =>
          if existsb running (tasks st) then None
          else Some (with_main st (AtConcat dfs))
      | Some t =>
          match pc t with
          | Returned df => Some (with_main st (Collecting (S i) (dfs ++ [df])))
          | Raised e | RaisedLate e =>
              Some (with_main (with_tasks st (cancel_after i (tasks st)))
                      (Unwinding e))
          | _ => None
          end
      end
  | Unwinding e =>
      if existsb running (tasks st) then None
      else Some (with_main st (Failed e))
  | AtConcat dfs =>
      match pd_concat dfs with
      | Raise e => Some (with_main st (Failed e))
      | Ok df => Some (with_main (with_self st (with_main_df (self st) df)) AtToSql)
      end
  | AtToSql =>
      let o := self st in
      match to_sql (engine o) (main_df o) with
      | (Ok _, eng) => Some (with_main (with_self st (with_engine o eng)) Finished)
      | (Raise e, eng) => Some (with_main (with_self st (with_engine o eng)) (Failed e))
      end
  | Finished | Failed _ => None
  end.

Inductive action : Type :=
| Worker (i : nat)
| Main.

Definition step (P : provider) (st : state) (a : action) : option state :=
  match a with
  | Worker i => worker_step P st i
  | Main => main_step st
  end.

(** A schedule is the list of threads that step, in order; a choice that
    cannot step makes the schedule impossible. *)
Fixpoint run (P : provider) (sched : list action) (st : state) : option state :=
  match sched with
  | [] => Some st
  | a :: sched' =>
      match step P st a with
      | None => None
      | Some st' => run P sched' st'
      end
  end.

(** Lines 60-65: the symbols of the table are rewritten and one call of
    [download_stock] per symbol is submitted to the pool. *)
Definition submit_all (o : StockInfoDownloader) (symbols : list string) : state :=
  mk_state o (fmap (fun s => mk_task s Queued false) (make_stock_list symbols))
           (Collecting 0 []) [].

(** Lines 57-60 raised [e]: [begin_download] raises it, nothing was
    submitted. *)
Definition page_failed (o : StockInfoDownloader) (e : exn) : state :=
  mk_state o [] (Failed e) [].

(** [begin_download] under a schedule.  [page] is what lines 57-60 get from
    [pd.read_html]: the Symbol column of the first table of the page, or
    the exception raised on the way. *)
Definition begin_download (P : provider) (o : StockInfoDownloader)
    (page : result (list string)) (sched : list action) : option state :=
  match page with
  | Ok symbols => run P sched (submit_all o symbols)
  | Raise e => run P sched (page_failed o e)
  end.

(** The configuration a schedule leads to, the initial one when the
    schedule is impossible. *)
Definition after (P : provider) (o : StockInfoDownloader)
    (page : result (list string)) (sched : list action) : state :=
  match begin_download P o page sched with
  | Some st => st
  | None => match page with
            | Ok symbols => submit_all o symbols
            | Raise e => page_failed o e
            end
  end.

(** The threads that can step in a configuration. *)
Definition enabled (P : provider) (st : state) (a : action) : bool :=
  match step P st a with Some _ => true | None => false end.

(** No thread can step: the run is over, or it hangs. *)
Definition stuck (P : provider) (st : state) : bool :=
  negb (enabled P st Main)
  && forallb (fun i => negb (enabled P st (Worker i))) (seq 0 (length (tasks st))).

(** [download_stock] run by one thread alone: [None] when [acquire] blocks,
    otherwise what the call returns or raises, and the object afterwards. *)
Definition download_stock (P : provider) (o : StockInfoDownloader) (s : string)
  : option (result frame * StockInfoDownloader) :=
  match semaphore o with
  | O => None
  | S n =>
      match P s (start_time o) (current_time o) with
      | Raise e => Some (Raise e, with_semaphore o n)
      | Ok df => Some (normalize s df, with_semaphore o (S n))
      end
  end.

(** What the call [download_stock(s)] comes to once it has the slot: the
    exception of the provider, or lines 40-47 on the provider's frame. *)
Definition task_result (P : provider) (o : StockInfoDownloader) (s : string)
  : result frame :=
  match P s (start_time o) (current_time o) with
  | Raise e => Raise e
  | Ok df => normalize s df
  end.

(** ** Invariants of a run *)

Local Close Scope Z_scope.

Definition count (f : task -> bool) (ts : list task) : nat :=
  length (List.filter f ts).

(** The call of [yf.download] is in flight. *)
Definition in_flight (t : task) : bool :=
  match pc t with Downloading => true | _ => false end.

(** The task is past its release, in lines 40-47 or done with them. *)
Definition normalizing (t : task) : bool :=
  match pc t with
  | AtSetName _ | AtResetIndex _ | AtToDate _ | Returned _ | RaisedLate _ => true
  | _ => false
  end.

(** What the position of a task says about its slot and its frame, for the
    provider [P] and the date range of the object [o]. *)
Definition task_inv (P : provider) (o : StockInfoDownloader) (t : task) : Prop :=
  let answer := P (stock t) (start_time o) (current_time o) in
  match pc t with
  | Queued | AtAcquire | Cancelled => holds t = false
  | Downloading => holds t = true
  | AtRelease df => holds t = true /\ answer = Ok df
  | AtSetName df => holds t = false /\ answer = Ok df
  | AtResetIndex df =>
      holds t = false /\ exists raw, answer = Ok raw /\ df = set_Name (stock t) raw
  | AtToDate df =>
      holds t = false /\
      exists raw, answer = Ok raw /\ reset_index (set_Name (stock t) raw) = Ok df
  | Returned df =>
      holds t = false /\ exists raw, answer = Ok raw /\ normalize (stock t) raw = Ok df
  | Raised e => holds t = true /\ answer = Raise e
  | RaisedLate e =>
      holds t = false /\ exists raw, answer = Ok raw /\ normalize (stock t) raw = Raise e
  end.

Definition returned (t : task) (df : frame) : Prop := pc t = Returned df.

(** What the position of the main thread says about the tasks, the local
    [df_list], [main_df] and the table. *)
Definition main_inv (o : StockInfoDownloader) (st : state) : Prop :=
  match main st with
  | Collecting i dfs =>
      Forall2 returned (take i (tasks st)) dfs /\ i <= length (tasks st) /\
      engine (self st) = engine o /\ main_df (self st) = main_df o
  | Unwinding e =>
      (exists t, t ∈ tasks st /\ exception t = Some e) /\
      engine (self st) = engine o /\ main_df (self st) = main_df o
  | AtConcat dfs =>
      Forall2 returned (tasks st) dfs /\
      engine (self st) = engine o /\ main_df (self st) = main_df o
  | AtToSql =>
      (exists dfs, Forall2 returned (tasks st) dfs /\
                   pd_concat dfs = Ok (main_df (self st))) /\
      engine (self st) = engine o
  | Finished =>
      (exists dfs, Forall2 returned (tasks st) dfs /\
                   pd_concat dfs = Ok (main_df (self st))) /\
      to_sql (engine o) (main_df (self st)) = (Ok tt, engine (self st))
  | Failed e =>
      (((exists t, t ∈ tasks st /\ exception t = Some e) \/
        (tasks st = [] /\ e = ValueError "No objects to concatenate")) /\
       engine (self st) = engine o /\ main_df (self st) = main_df o) \/
      ((exists dfs, Forall2 returned (tasks st) dfs /\
                    pd_concat dfs = Ok (main_df (self st))) /\
       to_sql (engine o) (main_df (self st)) = (Raise e, engine (self st)))
  end.

(** The invariant of [begin_download] on the object [o] and the rewritten
    symbols [l]. *)
Record inv (P : provider) (o : StockInfoDownloader) (l : list string)
    (st : state) : Prop := mk_inv {
  inv_current : current_time (self st) = current_time o;
  inv_start : start_time (self st) = start_time o;
  inv_stock_list : stock_list (self st) = stock_list o;
  inv_stocks : fmap stock (tasks st) = l;
  inv_tasks : Forall (task_inv P o) (tasks st);
  inv_slots : semaphore (self st) + count holds (tasks st) = semaphore o;
  inv_calls :
    Forall (fun c => c.1.1 ∈ l /\ c.1.2 = start_time o /\ c.2 = current_time o)
           (calls st);
  inv_main : main_inv o st
}.

(** ** Dates in order, dots in symbols *)

Definition date_ltb (a b : date) : bool :=
  ((d_year a <? d_year b)
   || ((d_year a =? d_year b)
       && ((d_month a <? d_month b)
           || ((d_month a =? d_month b) && (d_day a <? d_day b)))))%Z.

Fixpoint strictly_increasing (ds : list date) : bool :=
  match ds with
  | a :: ((b :: _) as rest) => date_ltb a b && strictly_increasing rest
  | _ => true
  end.

Fixpoint contains (c : ascii) (s : string) : bool :=
  match s with
  | EmptyString => false
  | String c' s' => Ascii.eqb c' c || contains c s'
  end.

(** ** Sample inputs *)

Definition sample_now : datetime := mk_datetime 2024 3 1 10 15 0 0.

Definition leap_day_now : datetime := mk_datetime 2024 2 29 10 15 0 0.

(** An engine with an empty table that accepts every frame. *)
Definition sample_engine : sql_engine := mk_engine [] (fun _ => None).

Definition sample_self : StockInfoDownloader :=
  mk_self 1 sample_now (mk_datetime 2013 3 1 0 0 0 0) [] sample_engine [].

Definition sample_px : prices := mk_prices 10 12 9 11 11 1000.

Definition day_27 : datetime := mk_datetime 2024 2 27 0 0 0 0.
Definition day_28 : datetime := mk_datetime 2024 2 28 0 0 0 0.

(** A frame of prices, its index named Date. *)
Definition prices_frame (rs : list raw_row) : raw_frame :=
  mk_raw_frame (Some "Date") rs.

(** One row for every symbol. *)
Definition provider_one_row : provider :=
  fun _ _ _ => Ok (prices_frame [mk_raw day_28 sample_px]).

(** One row for every symbol but BBB, for which the call raises. *)
Definition provider_bbb_raises : provider :=
  fun s _ _ =>
    if String.eqb s "BBB" then Raise (Exception "upstream")
    else Ok (prices_frame [mk_raw day_28 sample_px]).

(** The call raises for AAA. *)
Definition provider_aaa_raises : provider :=
  fun s _ _ =>
    if String.eqb s "AAA" then Raise (Exception "upstream")
    else Ok (prices_frame [mk_raw day_28 sample_px]).

(** One row for every symbol, stamped 15:30 on the 28th. *)
Definition provider_afternoon : provider :=
  fun _ _ _ => Ok (prices_frame [mk_raw (mk_datetime 2024 2 28 15 30 0 0) sample_px]).

(** The row of the 28th, normalized for the symbol [s]. *)
Definition row_28 (s : string) : row date :=
  mk_row 0 (mk_date 2024 2 28) sample_px s.

(** An engine that refuses every frame and loses the table on the way. *)
Definition refusing_engine : sql_engine :=
  mk_engine [[row_28 "OLD"]]
            (fun _ => Some (Exception "connection lost", [])).

Definition refused_self : StockInfoDownloader :=
  mk_self 1 sample_now (mk_datetime 2013 3 1 0 0 0 0) [] refusing_engine [].

(** Two rows, the later day first. *)
Definition provider_misordered : provider :=
  fun _ _ _ => Ok (prices_frame [mk_raw day_28 sample_px; mk_raw day_27 sample_px]).

(** Its rows, normalized for AAA. *)
Definition misordered_frame : frame :=
  [row_28 "AAA"; mk_row 1 (mk_date 2024 2 27) sample_px "AAA"].

(** No data points, in a frame whose index is named Date. *)
Definition provider_no_data : provider := fun _ _ _ => Ok (prices_frame []).

(** One row for every symbol but BBB, for which there is no data and the
    index has no name. *)
Definition provider_bbb_unnamed : provider :=
  fun s _ _ =>
    if String.eqb s "BBB" then Ok (mk_raw_frame None [])
    else Ok (prices_frame [mk_raw day_28 sample_px]).

(** The task at position [i] steps [n] times in a row. *)
Definition worker (n i : nat) : list action := repeat (Worker i) n.

(** ** Progress of a run *)

(** The steps a task can still take, at most. *)
Definition task_rank (t : task) : nat :=
  match pc t with
  | Queued => 7
  | AtAcquire => 6
  | Downloading => 5
  | AtRelease _ => 4
  | AtSetName _ => 3
  | AtResetIndex _ => 2
  | AtToDate _ => 1
  | Returned _ | Raised _ | RaisedLate _ | Cancelled => 0
  end.

(** The steps the main thread can still take, at most, with [n] tasks. *)
Definition main_rank (n : nat) (m : main_pc) : nat :=
  match m with
  | Collecting i _ => (n - i) + 3
  | AtConcat _ => 2
  | Unwinding _ | AtToSql => 1
  | Finished | Failed _ => 0
  end.

Definition steps_left (st : state) : nat :=
  sum_list_with task_rank (tasks st) + main_rank (length (tasks st)) (main st).

(** The task is between its acquire and its return: its next step does not
    depend on the other threads. *)
Definition moving (t : task) : bool :=
  match pc t with
  | Downloading | AtRelease _ | AtSetName _ | AtResetIndex _ | AtToDate _ => true
  | _ => false
  end.

(** The task is at its acquire. *)
Definition waiting (t : task) : bool :=
  match pc t with AtAcquire => true | _ => false end.

Definition cancelled (t : task) : bool :=
  match pc t with Cancelled => true | _ => false end.

(** The provider answers for the symbol [s]. *)
Definition answers (P : provider) (o : StockInfoDownloader) (s : string) : bool :=
  match P s (start_time o) (current_time o) with
  | Ok _ => true
  | Raise _ => false
  end.

(** ** Provider calls and the table *)

(** The provider call of the task has been made. *)
Definition called (t : task) : bool :=
  match pc t with
  | AtRelease _ | AtSetName _ | AtResetIndex _ | AtToDate _
  | Returned _ | Raised _ | RaisedLate _ => true
  | _ => false
  end.

(** The call [download_stock] makes for the symbol [s]. *)
Definition call_of (o : StockInfoDownloader) (s : string)
  : string * datetime * datetime :=
  (s, start_time o, current_time o).

Definition calls_made (o : StockInfoDownloader) (ts : list task)
  : list (string * datetime * datetime) :=
  omap (fun t => if called t then Some (call_of o (stock t)) else None) ts.

(** The call [download_stock(s)] returns a frame. *)
Definition succeeds (P : provider) (o : StockInfoDownloader) (s : string) : bool :=
  match task_result P o s with
  | Ok _ => true
  | Raise _ => false
  end.

(** What [download_stock] returns for [s] when it returns. *)
Definition series_of (P : provider) (o : StockInfoDownloader) (s : string)
  : frame :=
  match task_result P o s with
  | Ok df => df
  | Raise _ => []
  end.

(** The fresh index of [ignore_index=True]. *)
Definition renumber (df : frame) : frame :=
  imap (fun i r => mk_row i (Date r) (px r) (Name r)) df.

(** The series of the symbols of [l], in the order of [l], under one index. *)
Definition aggregate (P : provider) (o : StockInfoDownloader) (l : list string)
  : frame :=
  renumber (concat (series_of P o <$> l)).

(** Why [begin_download] raised [e]: the page could not be read; or there
    is nothing to concatenate; or the task of the symbol at some position
    raised [e] and the tasks of all symbols before it returned; or all tasks
    returned and the engine raised [e] on the aggregate. *)
Definition first_failure (P : provider) (o : StockInfoDownloader)
    (page : result (list string)) (e : exn) : Prop :=
  match page with
  | Raise e0 => e = e0
  | Ok symbols =>
      let l := make_stock_list symbols in
      (l = [] /\ e = ValueError "No objects to concatenate") \/
      (exists i s, l !! i = Some s /\
         task_result P o s = Raise e /\
         forall j s', j < i -> l !! j = Some s' -> succeeds P o s' = true) \/
      (Forall (fun s => succeeds P o s = true) l /\
       exists tbl, to_sql_raises (engine o) (aggregate P o l) = Some (e, tbl))
  end.

(** ** The report of lines 75-77 *)

(** [timedelta]: days, seconds of the day, microseconds of the second. *)
Record timedelta : Type := mk_timedelta {
  td_days : Z; td_seconds : Z; td_microseconds : Z
}.

(** [timedelta(days, seconds, microseconds)] on integers: the carries of the
    constructor, in its order. *)
Definition timedelta_new (days seconds microseconds : Z) : timedelta :=
  let d := days in
  let '(days1, seconds1) := (seconds / 86400, seconds mod 86400)%Z in
  let d := (d + days1)%Z in
  let s := seconds1 in
  let '(seconds2, microseconds2) :=
    (microseconds / 1000000, microseconds mod 1000000)%Z in
  let '(days2, seconds2) := (seconds2 / 86400, seconds2 mod 86400)%Z in
  let d := (d + days2)%Z in
  let s := (s + seconds2)%Z in
  let '(seconds3, us) := (microseconds2 / 1000000, microseconds2 mod 1000000)%Z in
  let s := (s + seconds3)%Z in
  let '(days3, s) := (s / 86400, s mod 86400)%Z in
  let d := (d + days3)%Z in
  mk_timedelta d s us.

Definition days_before_year (y : Z) : Z :=
  (let y' := y - 1 in y' * 365 + y' / 4 - y' / 100 + y' / 400)%Z.

Definition days_before_month (y m : Z) : Z :=
  (nth (Z.to_nat m) [-1; 0; 31; 59; 90; 120; 151; 181; 212; 243; 273; 304; 334] 0
   + (if (2 <? m) && is_leap y then 1 else 0))%Z.

(** [datetime.toordinal()]: the day number, 1 for January 1 of year 1. *)
Definition toordinal (t : datetime) : Z :=
  (days_before_year (year t) + days_before_month (year t) (month t) + day t)%Z.

Definition seconds_of_day (t : datetime) : Z :=
  (second t + minute t * 60 + hour t * 3600)%Z.

(** [a - b] on two [datetime] objects. *)
Definition datetime_sub (a b : datetime) : timedelta :=
  timedelta_new (toordinal a - toordinal b)
                (seconds_of_day a - seconds_of_day b)
                (microsecond a - microsecond b).

(** Lines 75-76: the minutes and seconds of the message of line 77, when
    the clock reads [now'] after the download. *)
Definition time_report (o : StockInfoDownloader) (now' : datetime) : Z * Z :=
  let time_elapsed := datetime_sub now' (current_time o) in
  (td_seconds time_elapsed / 60, td_seconds time_elapsed mod 60)%Z.

(** The microseconds from the start of day 0 to [t]. *)
Definition microseconds_at (t : datetime) : Z :=
  ((toordinal t * 86400 + seconds_of_day t) * 1000000 + microsecond t)%Z.

(** ** Case analysis on a step *)

(** Splits a hypothesis [step P st a = Some st'] into one goal per
    transition. *)
Ltac step_cases H :=
  unfold step, worker_step, main_step in H;
  repeat match type of H with
         | context [match ?x with _ => _ end] => destruct x eqn:?
         end;
  simplify_eq.

(** * Properties *)

(** ** Schedules *)

Lemma run_app P s1 s2 st :
  run P (s1 ++ s2) st =
  match run P s1 st with Some st' => run P s2 st' | None => None end.
Proof.
  revert st. induction s1 as [|a s1 IH]; intros st; simpl; [done|].
  destruct (step P st a); [apply IH | done].
Qed.

Lemma run_invariant P (I : state -> Prop) :
  (forall st a st', I st -> step P st a = Some st' -> I st') ->
  forall sched st st', I st -> run P sched st = Some st' -> I st'.
Proof.
  intros Hstep sched. induction sched as [|a sched IH]; intros st st' HI Hrun; simpl in Hrun.
  - by simplify_eq.
  - destruct (step P st a) as [st1|] eqn:E; [|done]. eauto.
Qed.

(** ** Counting tasks *)

Lemma count_cons f t ts : count f (t :: ts) = Nat.b2n (f t) + count f ts.
Proof. unfold count. simpl. by destruct (f t). Qed.

Lemma count_app f ts us : count f (ts ++ us) = count f ts + count f us.
Proof. unfold count. by rewrite List.filter_app, length_app. Qed.

Lemma count_insert f ts i t t' :
  ts !! i = Some t ->
  count f (<[i := t']> ts) + Nat.b2n (f t) = count f ts + Nat.b2n (f t').
Proof.
  revert i. induction ts as [|u ts IH]; intros [|i] H; simplify_eq/=.
  - rewrite !count_cons. lia.
  - rewrite !count_cons. specialize (IH _ H). lia.
Qed.

Lemma count_cancel f ts :
  (forall t, f (cancel t) = f t) -> count f (fmap cancel ts) = count f ts.
Proof.
  intros Hf. induction ts as [|t ts IH]; [done|].
  rewrite fmap_cons, !count_cons, Hf, IH. done.
Qed.

Lemma holds_cancel t : holds (cancel t) = holds t.
Proof. unfold cancel. by destruct (pc t). Qed.

Lemma stock_cancel t : stock (cancel t) = stock t.
Proof. unfold cancel. by destruct (pc t). Qed.

Lemma task_inv_cancel P o t : task_inv P o t -> task_inv P o (cancel t).
Proof. unfold cancel, task_inv. destruct (pc t) eqn:E; simpl; rewrite ?E; done. Qed.

Lemma set_task_lookup st i t :
  i < length (tasks st) -> tasks (set_task st i t) !! i = Some t.
Proof. intros Hi. simpl. by apply list_lookup_insert_eq. Qed.

(** ** One step preserves the invariant *)

Lemma stocks_insert (ts : list task) i t t' :
  ts !! i = Some t -> stock t' = stock t ->
  fmap stock (<[i := t']> ts) = fmap stock ts.
Proof.
  intros Hi Hs. rewrite list_fmap_insert, Hs.
  apply list_insert_id. by rewrite list_lookup_fmap, Hi.
Qed.

Lemma returned_prefix_insert (ts : list task) i j t t' dfs :
  ts !! i = Some t -> (forall df, pc t <> Returned df) ->
  Forall2 returned (take j ts) dfs ->
  Forall2 returned (take j (<[i := t']> ts)) dfs.
Proof.
  intros Hi Hpc H. destruct (decide (j <= i)) as [Hle|Hgt].
  - by rewrite take_insert_ge.
  - exfalso. assert (take j ts !! i = Some t) as Hti
      by (rewrite lookup_take_lt by lia; done).
    destruct (Forall2_lookup_l _ _ _ _ _ H Hti) as (df & _ & Hr).
    by apply (Hpc df).
Qed.

Lemma returned_all_insert (ts : list task) i t t' dfs :
  ts !! i = Some t -> (forall df, pc t <> Returned df) ->
  Forall2 returned ts dfs -> Forall2 returned (<[i := t']> ts) dfs.
Proof.
  intros Hi Hpc H. exfalso.
  destruct (Forall2_lookup_l _ _ _ _ _ H Hi) as (df & _ & Hr).
  by apply (Hpc df).
Qed.

Lemma exception_insert (ts : list task) i t t' e :
  ts !! i = Some t -> exception t = None ->
  (exists u, u ∈ ts /\ exception u = Some e) ->
  exists u, u ∈ <[i := t']> ts /\ exception u = Some e.
Proof.
  intros Hi Hpc (u & Hu & He). exists u. split; [|done].
  apply list_elem_of_lookup in Hu as [j Hj].
  apply list_elem_of_lookup. exists j.
  rewrite list_lookup_insert_ne; [done|].
  intros ->. rewrite Hi in Hj. simplify_eq.
Qed.

(** A step of a task that has not finished leaves what the main thread
    knows untouched. *)
Lemma main_inv_worker o st st' i t t' :
  main_inv o st -> tasks st !! i = Some t ->
  (forall df, pc t <> Returned df) -> exception t = None ->
  tasks st' = <[i := t']> (tasks st) -> main st' = main st ->
  engine (self st') = engine (self st) ->
  main_df (self st') = main_df (self st) ->
  main_inv o st'.
Proof.
  unfold main_inv. intros Hm Hi Hret Hrai Hts Hmain Heng Hdf.
  rewrite Hmain, Hts, Heng, Hdf.
  destruct (main st) as [j dfs|e|dfs| | |e].
  - destruct Hm as (H1 & H2 & H3 & H4). repeat split; try done.
    + eauto using returned_prefix_insert.
    + by rewrite length_insert.
  - destruct Hm as (H1 & H2 & H3). eauto using exception_insert.
  - destruct Hm as (H1 & H2 & H3). eauto using returned_all_insert.
  - destruct Hm as ((dfs & H1 & H2) & H3). split; [|done].
    exists dfs. eauto using returned_all_insert.
  - destruct Hm as ((dfs & H1 & H2) & H3). split; [|done].
    exists dfs. eauto using returned_all_insert.
  - destruct Hm as [([H1|[H1 _]] & H2 & H3)|((dfs & H1 & H2) & H3)].
    + left. eauto using exception_insert.
    + rewrite H1 in Hi. done.
    + right. split; [|done]. exists dfs. eauto using returned_all_insert.
Qed.

Lemma inv_worker_step P o l st i st' :
  inv P o l st -> worker_step P st i = Some st' -> inv P o l st'.
Proof.
  intros [Hc Hs Hl Hst Ht Hsl Hca Hm] Hstep.
  step_cases Hstep.
  all: match goal with H : _ !! _ = Some ?t, Hpc : pc ?t = _ |- _ =>
         pose proof (Forall_lookup_1 _ _ _ _ Ht H) as Hinv;
         unfold task_inv in Hinv; rewrite Hpc in Hinv;
         pose proof (fun t' => count_insert holds _ _ _ t' H) as Hcnt;
         assert (stock t ∈ fmap stock (tasks st)) as Hin
           by (apply list_elem_of_fmap; exists t; split; [done|];
               apply list_elem_of_lookup; eauto)
       end.
  all: repeat match goal with
              | H : _ /\ _ |- _ => destruct H
              | H : exists _, _ |- _ => destruct H
              end; subst.
  all: match goal with H : holds _ = _ |- _ =>
         rewrite ?H in *; pose proof H as Hh end.
  all: constructor; simpl; try done.
  all: try (eapply stocks_insert; [eassumption|done]).
  all: try (apply Forall_insert; [done|]; unfold task_inv, normalize; simpl;
            rewrite <- ?Hs, <- ?Hc in *; by eauto).
  all: try (eapply main_inv_worker;
            [eassumption|eassumption|congruence|unfold exception; by match goal with H : pc _ = _ |- _ => rewrite H end|done..]).
  all: try (apply Forall_app; split; [done|];
            apply Forall_singleton; simpl; by rewrite Hs, Hc).
  all: try (match goal with |- context [<[_ := ?t']> _] =>
         specialize (Hcnt t'); simpl in Hcnt end; rewrite ?Hh in Hcnt; simpl in Hcnt; lia).
  all: apply Forall_insert; [done|]; unfold task_inv; simpl;
    (split; [done|]); eexists; (split; [eassumption|]); unfold normalize.
  all: repeat match goal with H : _ = _ |- _ => rewrite H end; done.
Qed.

Lemma stocks_cancel_after i ts :
  fmap stock (cancel_after i ts) = fmap stock ts.
Proof.
  unfold cancel_after. rewrite fmap_app, <- list_fmap_compose.
  rewrite (list_fmap_ext (stock ∘ cancel) stock)
    by (intros; apply stock_cancel).
  by rewrite <- fmap_app, take_drop.
Qed.

Lemma task_inv_cancel_after P o i ts :
  Forall (task_inv P o) ts ->
  Forall (task_inv P o) (cancel_after i ts).
Proof.
  intros H. unfold cancel_after.
  apply Forall_app. split; [by apply Forall_take|].
  apply Forall_fmap. eapply Forall_impl; [by apply Forall_drop|].
  intros t. apply task_inv_cancel.
Qed.

Lemma count_holds_cancel_after i ts :
  count holds (cancel_after i ts) = count holds ts.
Proof.
  unfold cancel_after. rewrite count_app, count_cancel by apply holds_cancel.
  by rewrite <- count_app, take_drop.
Qed.

Lemma inv_main_step P o l st st' :
  inv P o l st -> main_step st = Some st' -> inv P o l st'.
Proof.
  intros [Hc Hs Hl Hst Ht Hsl Hca Hm] Hstep.
  unfold main_inv in Hm.
  step_cases Hstep.
  all: constructor; simpl; try done.
  all: try apply stocks_cancel_after.
  all: try by apply task_inv_cancel_after.
  all: try by rewrite count_holds_cancel_after.
  all: unfold main_inv; simpl.
  - (* the next result is there *)
    destruct Hm as (H1 & H2 & H3 & H4). repeat split; try done.
    + erewrite take_S_r by done. apply Forall2_app; [done|].
      by apply Forall2_cons.
    + by eapply lookup_lt_Some.
  - (* the next result is the exception of the provider *)
    destruct Hm as (H1 & H2 & H3 & H4). repeat split; try done.
    exists t. split; [|unfold exception; by rewrite Heqt0].
    unfold cancel_after. apply elem_of_app. left.
    apply list_elem_of_lookup. exists i. rewrite lookup_take_lt by lia. done.
  - (* the next result is an exception of lines 44-45 *)
    destruct Hm as (H1 & H2 & H3 & H4). repeat split; try done.
    exists t. split; [|unfold exception; by rewrite Heqt0].
    unfold cancel_after. apply elem_of_app. left.
    apply list_elem_of_lookup. exists i. rewrite lookup_take_lt by lia. done.
  - (* every result was taken *)
    destruct Hm as (H1 & H2 & H3 & H4). repeat split; try done.
    rewrite take_ge in H1 by (by apply lookup_ge_None). done.
  - destruct Hm as (H1 & H2 & H3). left. repeat split; try done. by left.
  - (* concat succeeded *)
    destruct Hm as (H1 & H2 & H3). split; [|done]. eauto.
  - (* concat raised *)
    destruct Hm as (H1 & H2 & H3). left. repeat split; try done. right.
    destruct df_list; simplify_eq/=. split; [|done].
    by apply Forall2_nil_inv_r in H1.
  - (* the write succeeded *)
    destruct Hm as ((dfs & H1 & H2) & H3). split; [eauto|].
    rewrite <- H3. by destruct a.
  - (* the write raised *)
    destruct Hm as ((dfs & H1 & H2) & H3). right. split; [eauto|]. by rewrite <- H3.
Qed.

Lemma inv_step P o l st a st' :
  inv P o l st -> step P st a = Some st' -> inv P o l st'.
Proof.
  destruct a; simpl; eauto using inv_worker_step, inv_main_step.
Qed.

Lemma inv_submit_all P o symbols :
  inv P o (make_stock_list symbols) (submit_all o symbols).
Proof.
  constructor; simpl; try done.
  - rewrite <- list_fmap_compose. apply list_fmap_id.
  - apply Forall_fmap, Forall_true. done.
  - assert (count holds (fmap (fun s => mk_task s Queued false)
                              (make_stock_list symbols)) = 0) as ->; [|lia].
    induction (make_stock_list symbols) as [|s l IH]; [done|].
    by rewrite fmap_cons, count_cons, IH.
  - unfold main_inv. simpl. repeat split; try done. lia.
Qed.

(** Every configuration of [begin_download] satisfies the invariant. *)
Lemma inv_begin_download P o symbols sched st :
  begin_download P o (Ok symbols) sched = Some st ->
  inv P o (make_stock_list symbols) st.
Proof.
  intros Hrun. eapply (run_invariant P); [|apply inv_submit_all|exact Hrun].
  intros. by eapply inv_step.
Qed.

(** ** The constructor and the date range *)

Lemma valid_datetime_fields t :
  valid_datetime t = true ->
  (MINYEAR <= year t <= MAXYEAR /\ 1 <= month t <= 12 /\
   1 <= day t <= days_in_month (year t) (month t) /\
   0 <= hour t < 24 /\ 0 <= minute t < 60 /\ 0 <= second t < 60 /\
   0 <= microsecond t < 1000000)%Z.
Proof. unfold valid_datetime. rewrite !andb_true_iff. lia. Qed.

Lemma leap_year_minus_11 y : is_leap y = true -> is_leap (y - 11) = false.
Proof.
  unfold is_leap. rewrite andb_true_iff. intros [H4 _].
  apply Z.eqb_eq in H4.
  assert (Z.eqb ((y - 11) mod 4) 0 = false) as ->; [|done].
  apply Z.eqb_neq. revert H4. Z.div_mod_to_equations. lia.
Qed.

Lemma days_in_february y : (28 <= days_in_month y 2 <= 29)%Z.
Proof. unfold days_in_month. simpl. destruct (is_leap y); lia. Qed.

Lemma days_in_month_other y y' m : m <> 2%Z -> days_in_month y m = days_in_month y' m.
Proof.
  intros Hm. unfold days_in_month.
  assert (Z.eqb m 2 = false) as -> by (by apply Z.eqb_neq). done.
Qed.

Lemma datetime_new_ok y m d :
  (MINYEAR <= y <= MAXYEAR)%Z -> (1 <= m <= 12)%Z ->
  (1 <= d <= days_in_month y m)%Z ->
  datetime_new y m d = Ok (mk_datetime y m d 0 0 0 0).
Proof.
  intros Hy Hm Hd. unfold datetime_new, check_date_fields.
  assert ((MINYEAR <=? y) && (y <=? MAXYEAR) = true)%Z as ->
    by (rewrite andb_true_iff; lia).
  assert ((1 <=? m) && (m <=? 12) = true)%Z as ->
    by (rewrite andb_true_iff; lia).
  assert ((1 <=? d) && (d <=? days_in_month y m) = true)%Z as ->
    by (rewrite andb_true_iff; lia).
  done.
Qed.

Lemma datetime_new_day_out_of_range y m d :
  (days_in_month y m < d)%Z -> exists msg, datetime_new y m d = Raise (ValueError msg).
Proof.
  intros Hd. unfold datetime_new, check_date_fields.
  destruct (negb _); [eauto|]. destruct (negb _); [eauto|].
  assert ((1 <=? d) && (d <=? days_in_month y m) = false)%Z as ->
    by (rewrite andb_false_iff; lia).
  simpl. eauto.
Qed.

Lemma init_ok eng now o :
  __init__ eng now = Ok o ->
  o = mk_self 1 now (mk_datetime (year now - 11) (month now) (day now) 0 0 0 0)
        [] eng [].
Proof.
  unfold __init__, datetime_new. destruct (check_date_fields _ _ _); [|done].
  by intros [= <-].
Qed.

(** The bound of C10 on the year is needed only where no clock reads:
    in the years 1 to 11 the year of the start date is below [MINYEAR]. *)
Lemma init_raises_before_year_12 eng now :
  (year now < MINYEAR + 11)%Z ->
  exists msg, __init__ eng now = Raise (ValueError msg).
Proof.
  intros Hy. unfold __init__, datetime_new, check_date_fields.
  assert ((MINYEAR <=? year now - 11) && (year now - 11 <=? MAXYEAR) = false)%Z
    as -> by (rewrite andb_false_iff; lia).
  simpl. eauto.
Qed.

(** C10: constructing the downloader raises whenever the current date is
    February 29, because the year 11 years earlier is never a leap year; on
    every other current date (of a year a clock can read, one that leaves 11
    years above [MINYEAR]) the construction succeeds and the start date is a
    valid date, 11 years earlier with the same month and day. *)
Theorem init_raises_exactly_on_february_29 eng now :
  valid_datetime now = true ->
  (is_leap (year now) = true -> is_leap (year now - 11) = false) /\
  (month now = 2%Z /\ day now = 29%Z ->
   exists msg, __init__ eng now = Raise (ValueError msg)) /\
  (~ (month now = 2%Z /\ day now = 29%Z) -> (MINYEAR + 11 <= year now)%Z ->
   exists o, __init__ eng now = Ok o /\
     start_time o = mk_datetime (year now - 11) (month now) (day now) 0 0 0 0 /\
     valid_datetime (start_time o) = true /\ current_time o = now).
Proof.
  intros Hv. apply valid_datetime_fields in Hv as (Hy & Hm & Hd & _).
  split; [apply leap_year_minus_11|]. split.
  - intros [Hm2 Hd29]. unfold __init__. rewrite Hm2, Hd29 in *.
    assert (is_leap (year now) = true) as Hleap.
    { unfold days_in_month in Hd. simpl in Hd.
      destruct (is_leap (year now)); [done|lia]. }
    apply leap_year_minus_11 in Hleap.
    destruct (datetime_new_day_out_of_range (year now - 11) 2 29) as [msg ->].
    + unfold days_in_month. simpl. rewrite Hleap. lia.
    + eauto.
  - intros Hne Hmin. unfold MINYEAR, MAXYEAR in *.
    assert (day now <= days_in_month (year now - 11) (month now))%Z as Hd'.
    { destruct (decide (month now = 2%Z)) as [Hm2|Hm2].
      - rewrite Hm2 in *. pose proof (days_in_february (year now)).
        pose proof (days_in_february (year now - 11)).
        assert (day now <> 29%Z) by tauto. lia.
      - rewrite (days_in_month_other _ (year now)) by done. lia. }
    unfold __init__. rewrite datetime_new_ok by (unfold MINYEAR, MAXYEAR; lia).
    eexists. split; [done|]. simpl. repeat split.
    unfold valid_datetime, MINYEAR, MAXYEAR. simpl.
    rewrite !andb_true_iff. lia.
Qed.

Lemma init_raises_exactly_on_february_29_witness :
  (exists msg, __init__ sample_engine leap_day_now = Raise (ValueError msg)) /\
  (exists o, __init__ sample_engine sample_now = Ok o /\
     start_time o = mk_datetime 2013 3 1 0 0 0 0 /\
     valid_datetime (start_time o) = true /\ current_time o = sample_now).
Proof.
  split.
  - apply (init_raises_exactly_on_february_29 sample_engine leap_day_now); [reflexivity|].
    split; reflexivity.
  - apply (init_raises_exactly_on_february_29 sample_engine sample_now); [reflexivity| |].
    + simpl. intros [H _]. discriminate H.
    + unfold MINYEAR. simpl. lia.
Defined.

(** C9: the date range is computed once, by the constructor, and every
    provider call of the run is made with it: the end is the current time
    read at construction, the start is 11 years earlier with the same month
    and day, and the two fields never change while the run lasts. *)
Theorem date_range_fixed_for_the_run eng now o P symbols sched st :
  __init__ eng now = Ok o ->
  begin_download P o (Ok symbols) sched = Some st ->
  current_time o = now /\
  start_time o = mk_datetime (year now - 11) (month now) (day now) 0 0 0 0 /\
  current_time (self st) = now /\
  start_time (self st) = start_time o /\
  Forall (fun c => c.1.2 = start_time o /\ c.2 = now) (calls st).
Proof.
  intros Hinit Hrun. apply init_ok in Hinit.
  apply inv_begin_download in Hrun as [Hc Hs _ _ _ _ Hca _].
  subst o. simpl in *. repeat split; try done.
  eapply Forall_impl; [exact Hca|]. simpl. tauto.
Qed.

Lemma date_range_fixed_for_the_run_witness :
  exists st,
    begin_download provider_one_row sample_self (Ok ["AAA"; "BBB"])
      (worker 3 0 ++ worker 1 1 ++ worker 1 0 ++ worker 2 1) = Some st /\
    calls st = [("AAA", mk_datetime 2013 3 1 0 0 0 0, sample_now);
                ("BBB", mk_datetime 2013 3 1 0 0 0 0, sample_now)] /\
    Forall (fun c => c.1.2 = start_time sample_self /\ c.2 = sample_now) (calls st).
Proof.
  eexists. split; [vm_compute; reflexivity|]. split; [reflexivity|].
  apply (date_range_fixed_for_the_run sample_engine sample_now sample_self
           provider_one_row ["AAA"; "BBB"]
           (worker 3 0 ++ worker 1 1 ++ worker 1 0 ++ worker 2 1));
    vm_compute; reflexivity.
Defined.

(** ** Symbols *)

Lemma str_replace_length old new s :
  String.length (str_replace old new s) = String.length s.
Proof. induction s as [|c s IH]; simpl; [done|]. by rewrite IH. Qed.

Lemma str_replace_get old new s n :
  String.get n (str_replace old new s) =
  (fun c => if Ascii.eqb c old then new else c) <$> String.get n s.
Proof.
  revert n. induction s as [|c s IH]; intros n; simpl; [done|].
  destruct n as [|n]; [done|]. apply IH.
Qed.

Lemma str_replace_contains old new s :
  old <> new -> contains old (str_replace old new s) = false.
Proof.
  intros Hne. induction s as [|c s IH]; simpl; [done|].
  rewrite IH, orb_false_r.
  destruct (Ascii.eqb c old) eqn:E; [|done].
  apply Ascii.eqb_neq. congruence.
Qed.

Lemma make_stock_list_no_dot symbols :
  Forall (fun s => contains "."%char s = false) (make_stock_list symbols).
Proof.
  unfold make_stock_list. apply Forall_fmap, Forall_true. intros s. simpl.
  by apply str_replace_contains.
Qed.

(** C5: every dot of every raw ticker is rewritten to a hyphen before the
    ticker is used: the symbol of every task and of every provider call has
    no dot, and BRK.B is fetched as BRK-B. *)
Theorem fetcher_never_sees_a_dot P o symbols sched st :
  begin_download P o (Ok symbols) sched = Some st ->
  make_stock_list ["BRK.B"] = ["BRK-B"] /\
  fmap stock (tasks st) = fmap (str_replace "."%char "-"%char) symbols /\
  (forall s n, String.get n (str_replace "."%char "-"%char s) =
               (fun c => if Ascii.eqb c "."%char then "-"%char else c)
                 <$> String.get n s) /\
  Forall (fun t => contains "."%char (stock t) = false) (tasks st) /\
  Forall (fun c => contains "."%char c.1.1 = false) (calls st).
Proof.
  intros Hrun. apply inv_begin_download in Hrun as [_ _ _ Hst _ _ Hca _].
  pose proof (make_stock_list_no_dot symbols) as Hdot.
  rewrite Forall_forall in Hdot.
  split; [done|]. split; [done|]. split; [intros; apply str_replace_get|].
  split.
  - apply Forall_forall. intros t Ht. apply Hdot. rewrite <- Hst.
    apply list_elem_of_fmap. eauto.
  - eapply Forall_impl; [exact Hca|]. simpl. intros c (Hc & _). by apply Hdot.
Qed.

Lemma fetcher_never_sees_a_dot_witness :
  exists st,
    begin_download provider_one_row sample_self (Ok ["BRK.B"; "BF.B"]) (worker 3 0)
      = Some st /\
    fmap stock (tasks st) = ["BRK-B"; "BF-B"] /\
    calls st = [("BRK-B", start_time sample_self, sample_now)] /\
    Forall (fun c => contains "."%char c.1.1 = false) (calls st).
Proof.
  eexists. split; [vm_compute; reflexivity|].
  split; [reflexivity|]. split; [reflexivity|].
  apply (fetcher_never_sees_a_dot provider_one_row sample_self
           ["BRK.B"; "BF.B"] (worker 3 0)).
  vm_compute; reflexivity.
Defined.

(** ** Normalization *)

(** A frame whose index is named Date goes through lines 41-45. *)
Lemma normalize_Date s raw :
  index_name raw = Some "Date" ->
  normalize s raw =
  Ok (imap (fun k r => mk_row k (dt_date (r_Date r)) (r_px r) s) (rows raw)).
Proof.
  intros Hname. unfold normalize, reset_index, to_date_column, set_Name. simpl.
  rewrite Hname. simpl. f_equal. apply list_eq. intros k.
  rewrite list_lookup_fmap, !list_lookup_imap, list_lookup_fmap.
  by destruct (rows raw !! k).
Qed.

(** Only such a frame does. *)
Lemma normalize_Ok s raw df :
  normalize s raw = Ok df -> index_name raw = Some "Date".
Proof.
  unfold normalize, reset_index, to_date_column.
  cbn [set_Name t_index_name t_rows].
  match goal with |- context [existsb ?f ?l] => destruct (existsb f l) end; [done|].
  cbn [index_column r_rows]. destruct (String.eqb _ _) eqn:E; [|done]. intros _.
  apply String.eqb_eq in E. by destruct (index_name raw) as [n|]; simplify_eq/=.
Qed.

(** A frame whose index has no name stops at line 45. *)
Lemma normalize_unnamed s raw :
  index_name raw = None -> normalize s raw = Raise (KeyError "Date").
Proof.
  intros Hname. unfold normalize, reset_index, to_date_column, set_Name. simpl.
  by rewrite Hname.
Qed.

Lemma normalize_lookup s raw df k :
  normalize s raw = Ok df ->
  df !! k = (fun r => mk_row k (dt_date (r_Date r)) (r_px r) s) <$> rows raw !! k.
Proof.
  intros H. pose proof (normalize_Ok _ _ _ H) as Hname.
  rewrite (normalize_Date _ _ Hname) in H. simplify_eq.
  by rewrite list_lookup_imap.
Qed.

Lemma normalize_length s raw df :
  normalize s raw = Ok df -> length df = length (rows raw).
Proof.
  intros H. pose proof (normalize_Ok _ _ _ H) as Hname.
  rewrite (normalize_Date _ _ Hname) in H. simplify_eq.
  by rewrite length_imap.
Qed.

Lemma normalize_dates s raw df :
  normalize s raw = Ok df ->
  fmap Date df = fmap (fun r => dt_date (r_Date r)) (rows raw).
Proof.
  intros H. apply list_eq. intros k.
  rewrite !list_lookup_fmap, (normalize_lookup _ _ _ _ H).
  by destruct (rows raw !! k).
Qed.

(** What a finished task holds: the provider's answer, normalized. *)
Lemma returned_is_normalized P o symbols sched st i t df :
  begin_download P o (Ok symbols) sched = Some st ->
  tasks st !! i = Some t -> pc t = Returned df ->
  exists raw, P (stock t) (start_time o) (current_time o) = Ok raw /\
              normalize (stock t) raw = Ok df.
Proof.
  intros Hrun Hi Hpc. apply inv_begin_download in Hrun as [_ _ _ _ Ht _ _ _].
  pose proof (Forall_lookup_1 _ _ _ _ Ht Hi) as Hinv.
  unfold task_inv in Hinv. rewrite Hpc in Hinv. tauto.
Qed.

(** A task that raised before its release holds the exception of its
    provider call, and the slot. *)
Lemma raised_is_provider_exception P o symbols sched st i t e :
  begin_download P o (Ok symbols) sched = Some st ->
  tasks st !! i = Some t -> pc t = Raised e ->
  P (stock t) (start_time o) (current_time o) = Raise e /\ holds t = true.
Proof.
  intros Hrun Hi Hpc. apply inv_begin_download in Hrun as [_ _ _ _ Ht _ _ _].
  pose proof (Forall_lookup_1 _ _ _ _ Ht Hi) as Hinv.
  unfold task_inv in Hinv. rewrite Hpc in Hinv. tauto.
Qed.

(** A task that raised after its release holds the exception of lines
    44-45 on the provider's answer, and no slot. *)
Lemma raised_late_is_normalize_exception P o symbols sched st i t e :
  begin_download P o (Ok symbols) sched = Some st ->
  tasks st !! i = Some t -> pc t = RaisedLate e ->
  holds t = false /\
  exists raw, P (stock t) (start_time o) (current_time o) = Ok raw /\
              normalize (stock t) raw = Raise e.
Proof.
  intros Hrun Hi Hpc. apply inv_begin_download in Hrun as [_ _ _ _ Ht _ _ _].
  pose proof (Forall_lookup_1 _ _ _ _ Ht Hi) as Hinv.
  unfold task_inv in Hinv. rewrite Hpc in Hinv. tauto.
Qed.

(** The outcome of a task that is over is that of [task_result]. *)
Lemma task_over P o symbols sched st i t :
  begin_download P o (Ok symbols) sched = Some st ->
  tasks st !! i = Some t ->
  (forall df, pc t = Returned df -> task_result P o (stock t) = Ok df) /\
  (forall e, exception t = Some e -> task_result P o (stock t) = Raise e).
Proof.
  intros Hrun Hi. unfold task_result, exception. split.
  - intros df Hpc.
    destruct (returned_is_normalized _ _ _ _ _ _ _ _ Hrun Hi Hpc) as (raw & -> & H).
    done.
  - intros e He. destruct (pc t) eqn:Hpc; simplify_eq.
    + by destruct (raised_is_provider_exception _ _ _ _ _ _ _ _ Hrun Hi Hpc) as [-> _].
    + by destruct (raised_late_is_normalize_exception _ _ _ _ _ _ _ _ Hrun Hi Hpc)
        as (_ & raw & -> & H).
Qed.

Lemma task_stock P o symbols sched st i t :
  begin_download P o (Ok symbols) sched = Some st ->
  tasks st !! i = Some t -> make_stock_list symbols !! i = Some (stock t).
Proof.
  intros Hrun Hi. apply inv_begin_download in Hrun as [_ _ _ Hst _ _ _ _].
  by rewrite <- Hst, list_lookup_fmap, Hi.
Qed.

(** C8: in every series a task returns, every row carries the symbol the
    task was started for in its Name field, and its Date is the calendar day
    (year, month, day) of the provider's timestamp of that row: the time of
    day is dropped. *)
Theorem rows_tagged_and_dated P o symbols sched st i t df :
  begin_download P o (Ok symbols) sched = Some st ->
  tasks st !! i = Some t -> pc t = Returned df ->
  make_stock_list symbols !! i = Some (stock t) /\
  exists raw,
    P (stock t) (start_time o) (current_time o) = Ok raw /\
    length df = length (rows raw) /\
    forall k r, df !! k = Some r ->
      Name r = stock t /\
      exists rr, rows raw !! k = Some rr /\
        Date r = mk_date (year (r_Date rr)) (month (r_Date rr)) (day (r_Date rr)) /\
        px r = r_px rr /\ idx r = k.
Proof.
  intros Hrun Hi Hpc. split; [by eapply task_stock|].
  destruct (returned_is_normalized _ _ _ _ _ _ _ _ Hrun Hi Hpc) as (raw & HP & Hn).
  exists raw. split; [done|]. split; [by eapply normalize_length|].
  intros k r Hk. rewrite (normalize_lookup _ _ _ _ Hn) in Hk.
  destruct (rows raw !! k) as [rr|]; simplify_eq/=.
  split; [done|]. by exists rr.
Qed.

Lemma rows_tagged_and_dated_witness :
  make_stock_list ["BRK.B"] !! 0 = Some "BRK-B" /\
  exists raw,
    provider_afternoon "BRK-B" (start_time sample_self) (current_time sample_self)
      = Ok raw /\
    length [row_28 "BRK-B"] = length (rows raw) /\
    forall k r, [row_28 "BRK-B"] !! k = Some r ->
      Name r = "BRK-B" /\
      exists rr, rows raw !! k = Some rr /\
        Date r = mk_date (year (r_Date rr)) (month (r_Date rr)) (day (r_Date rr)) /\
        px r = r_px rr /\ idx r = k.
Proof.
  apply (rows_tagged_and_dated provider_afternoon sample_self ["BRK.B"]
           (worker 7 0)
           (mk_state sample_self
              [mk_task "BRK-B" (Returned [row_28 "BRK-B"]) false]
              (Collecting 0 [])
              [("BRK-B", start_time sample_self, sample_now)])
           0 (mk_task "BRK-B" (Returned [row_28 "BRK-B"]) false)
           [row_28 "BRK-B"]); vm_compute; reflexivity.
Defined.

(** When the main thread is past the loop, every task has returned. *)
Lemma past_the_loop_all_returned P o symbols sched st :
  begin_download P o (Ok symbols) sched = Some st ->
  (main st = AtToSql \/ main st = Finished \/ exists dfs, main st = AtConcat dfs) ->
  exists dfs, Forall2 returned (tasks st) dfs.
Proof.
  intros Hrun Hmain. apply inv_begin_download in Hrun as [_ _ _ _ _ _ _ Hm].
  unfold main_inv in Hm.
  destruct Hmain as [Hmain|[Hmain|[dfs Hmain]]]; rewrite Hmain in Hm.
  - destruct Hm as ((dfs & H & _) & _). eauto.
  - destruct Hm as ((dfs & H & _) & _). eauto.
  - destruct Hm as (H & _). eauto.
Qed.

(** ** The aggregate *)

Lemma returned_frames P o (ts : list task) dfs :
  Forall (task_inv P o) ts -> Forall2 returned ts dfs ->
  dfs = series_of P o <$> (stock <$> ts) /\
  Forall (fun t => answers P o (stock t) = true) ts /\
  Forall (fun t => succeeds P o (stock t) = true) ts.
Proof.
  intros Ht Hall. induction Hall as [|t df ts dfs Hret _ IH].
  - split; [done|split; constructor].
  - apply Forall_cons in Ht as [Hinv Ht]. destruct (IH Ht) as (-> & Hans & Hsuc).
    unfold returned in Hret. unfold task_inv in Hinv. rewrite Hret in Hinv.
    destruct Hinv as (_ & raw & HP & Hn).
    split; [|split].
    + rewrite !fmap_cons. f_equal. unfold series_of, task_result. by rewrite HP, Hn.
    + constructor; [|done]. unfold answers. by rewrite HP.
    + constructor; [|done]. unfold succeeds, task_result. by rewrite HP, Hn.
Qed.

Lemma pd_concat_ok dfs df :
  pd_concat dfs = Ok df -> dfs <> [] /\ df = renumber (concat dfs).
Proof. destruct dfs; [done|]. intros [= <-]. done. Qed.

Lemma renumber_lookup df k :
  renumber df !! k = (fun r => mk_row k (Date r) (px r) (Name r)) <$> df !! k.
Proof. unfold renumber. by rewrite list_lookup_imap. Qed.

Lemma series_of_names P o s r : r ∈ series_of P o s -> Name r = s.
Proof.
  unfold series_of, task_result.
  destruct (P _ _ _) as [raw|]; [|by intros ?%elem_of_nil].
  destruct (normalize s raw) as [df|] eqn:Hn; [|by intros ?%elem_of_nil].
  intros [k Hk]%list_elem_of_lookup. rewrite (normalize_lookup _ _ _ _ Hn) in Hk.
  destruct (rows raw !! k); by simplify_eq/=.
Qed.

Lemma elem_of_concat {A} (x : A) (ls : list (list A)) :
  x ∈ concat ls -> exists l, x ∈ l /\ l ∈ ls.
Proof.
  induction ls as [|l ls IH]; simpl; [by intros ?%elem_of_nil|].
  intros [Hl|Hls]%elem_of_app.
  - exists l. split; [done|]. apply list_elem_of_here.
  - destruct (IH Hls) as (l' & Hx & Hl'). exists l'. split; [done|].
    by apply list_elem_of_further.
Qed.

(** A row of the aggregate comes from the series of the symbol it
    carries. *)
Lemma aggregate_row_origin P o l k r :
  aggregate P o l !! k = Some r ->
  idx r = k /\ Name r ∈ l /\ series_of P o (Name r) <> [].
Proof.
  unfold aggregate. rewrite renumber_lookup.
  destruct (concat _ !! k) as [r'|] eqn:Hk; [|done]. intros [= <-]. simpl.
  split; [done|].
  apply list_elem_of_lookup_2 in Hk. apply elem_of_concat in Hk as (df & Hr & Hdf).
  apply list_elem_of_fmap in Hdf as (s & -> & Hs).
  rewrite (series_of_names _ _ _ _ Hr). split; [done|].
  intros Hnil. rewrite Hnil in Hr. by apply elem_of_nil in Hr.
Qed.



(** Once the concatenation has succeeded, [main_df] is the aggregate. *)
Lemma concatenated_main_df P o symbols sched st :
  begin_download P o (Ok symbols) sched = Some st ->
  (exists dfs, Forall2 returned (tasks st) dfs /\
               pd_concat dfs = Ok (main_df (self st))) ->
  symbols <> [] /\
  Forall (fun s => answers P o s = true) (make_stock_list symbols) /\
  Forall (fun s => succeeds P o s = true) (make_stock_list symbols) /\
  main_df (self st) = aggregate P o (make_stock_list symbols).
Proof.
  intros Hrun (dfs & Hall & Hcat).
  pose proof (inv_begin_download _ _ _ _ _ Hrun) as [_ _ _ Hst Ht _ _ _].
  destruct (returned_frames _ _ _ _ Ht Hall) as (-> & Hans & Hsuc).
  apply pd_concat_ok in Hcat as [Hne Hdf]. rewrite Hst in Hne, Hdf.
  split; [|split; [|split; [|done]]].
  - intros ->. by apply Hne.
  - rewrite <- Hst. by apply Forall_fmap.
  - rewrite <- Hst. by apply Forall_fmap.
Qed.

(** What the engine holds when [begin_download] has returned. *)
Lemma finished_run P o symbols sched st :
  begin_download P o (Ok symbols) sched = Some st ->
  main st = Finished ->
  main_df (self st) = aggregate P o (make_stock_list symbols) /\
  to_sql_raises (engine o) (main_df (self st)) = None /\
  table (engine (self st)) = table (engine o) ++ [main_df (self st)] /\
  to_sql_raises (engine (self st)) = to_sql_raises (engine o).
Proof.
  intros Hrun Hfin.
  pose proof (inv_begin_download _ _ _ _ _ Hrun) as [_ _ _ _ _ _ _ Hm].
  unfold main_inv in Hm. rewrite Hfin in Hm. destruct Hm as (Hcat & Hsql).
  destruct (concatenated_main_df _ _ _ _ _ Hrun Hcat) as (_ & _ & _ & Hdf).
  split; [done|]. unfold to_sql in Hsql.
  destruct (to_sql_raises (engine o) (main_df (self st))) as [[e tbl]|];
    [done|].
  injection Hsql as <-. done.
Qed.

(** ** What the pipeline does not check *)

(** C6, as the spec has it, fails: the provider answers with the 28th before
    the 27th, the task returns the two rows in that order, and the run
    finishes and writes them; no error is raised. *)
Lemma misordered_series_is_emitted :
  exists st df,
    begin_download provider_misordered sample_self (Ok ["AAA"])
      (worker 7 0 ++ [Main; Main; Main; Main]) = Some st /\
    main st = Finished /\
    table (engine (self st)) = [df] /\
    fmap Date df = [mk_date 2024 2 28; mk_date 2024 2 27] /\
    strictly_increasing (fmap Date df) = false.
Proof.
  eexists. eexists. split; [vm_compute; reflexivity|].
  repeat split; reflexivity.
Qed.

(** C6, amended: the normalizer neither sorts nor checks.  The dates of a
    returned series are the calendar days of the provider's rows, in the
    provider's order, so they are strictly increasing exactly when the
    provider's days are; and on a frame of prices, its index named Date,
    lines 40-47 go through whatever the order of the rows and give the days
    in that order: a non-monotonic input is emitted as it is. *)
Theorem dates_keep_provider_order P o symbols sched st :
  begin_download P o (Ok symbols) sched = Some st ->
  (forall i t df, tasks st !! i = Some t -> pc t = Returned df ->
     exists raw,
       P (stock t) (start_time o) (current_time o) = Ok raw /\
       fmap Date df = fmap (fun r => dt_date (r_Date r)) (rows raw) /\
       strictly_increasing (fmap Date df) =
       strictly_increasing (fmap (fun r => dt_date (r_Date r)) (rows raw))) /\
  (forall s raw,
     P s (start_time o) (current_time o) = Ok raw ->
     index_name raw = Some "Date" ->
     exists df, task_result P o s = Ok df /\
       fmap Date df = fmap (fun r => dt_date (r_Date r)) (rows raw)).
Proof.
  intros Hrun. split.
  - intros i t df Hi Hpc.
    destruct (returned_is_normalized _ _ _ _ _ _ _ _ Hrun Hi Hpc) as (raw & HP & Hn).
    exists raw. rewrite (normalize_dates _ _ _ Hn). done.
  - intros s raw HP Hname. unfold task_result. rewrite HP.
    pose proof (normalize_Date s raw Hname) as Hn.
    eexists. split; [exact Hn|]. by eapply normalize_dates.
Qed.

Lemma dates_keep_provider_order_witness :
  (exists raw,
     provider_misordered "AAA" (start_time sample_self) (current_time sample_self)
       = Ok raw /\
     fmap Date misordered_frame = fmap (fun r => dt_date (r_Date r)) (rows raw) /\
     strictly_increasing (fmap Date misordered_frame) =
     strictly_increasing (fmap (fun r => dt_date (r_Date r)) (rows raw))) /\
  (exists df,
     task_result provider_misordered sample_self "AAA" = Ok df /\
     fmap Date df = [mk_date 2024 2 28; mk_date 2024 2 27]).
Proof.
  destruct (dates_keep_provider_order provider_misordered sample_self ["AAA"]
              (worker 7 0)
              (mk_state sample_self
                 [mk_task "AAA" (Returned misordered_frame) false]
                 (Collecting 0 [])
                 [("AAA", start_time sample_self, sample_now)]))
    as [Hret Hany]; [vm_compute; reflexivity|].
  split.
  - apply (Hret 0 (mk_task "AAA" (Returned misordered_frame) false)
             misordered_frame); reflexivity.
  - apply (Hany "AAA"
             (prices_frame [mk_raw day_28 sample_px; mk_raw day_27 sample_px]));
      reflexivity.
Defined.

(** C7, as the spec has it, fails: the provider answers with no data
    points, the task returns the empty frame as its result, and the run
    finishes and writes an empty table; no error is raised. *)
Lemma empty_series_is_a_success :
  exists st,
    begin_download provider_no_data sample_self (Ok ["AAA"])
      (worker 7 0 ++ [Main; Main; Main; Main]) = Some st /\
    tasks st = [mk_task "AAA" (Returned []) false] /\
    main st = Finished /\
    table (engine (self st)) = [[]].
Proof.
  eexists. split; [vm_compute; reflexivity|]. repeat split; reflexivity.
Qed.

(** C7, amended: no line of [download_stock] looks at the number of rows,
    and no error is dedicated to an empty answer.  When the provider returns
    no data points its call has not failed, and what follows depends on the
    index of the empty frame.  If the index is named Date, [download_stock]
    returns the empty frame as a normal result and gives the slot back; the
    main thread takes it into [df_list] like any other result, and in a run
    that has returned no row of the table carries the symbol.  If the index
    has no name, line 45 raises KeyError Date, after the slot was given
    back: the task never returns a frame and [begin_download] never
    returns. *)
Theorem no_data_is_returned_empty eng now P o symbols sched st i t raw :
  __init__ eng now = Ok o ->
  begin_download P o (Ok symbols) sched = Some st ->
  tasks st !! i = Some t ->
  P (stock t) (start_time o) (current_time o) = Ok raw ->
  rows raw = [] ->
  (forall e, pc t <> Raised e) /\
  (index_name raw = Some "Date" ->
     download_stock P o (stock t) = Some (Ok [], o) /\
     (forall e, pc t <> RaisedLate e) /\
     (forall df, pc t = Returned df -> df = []) /\
     (forall dfs, main st = Collecting i dfs -> pc t = Returned [] ->
        exists st', step P st Main = Some st' /\
                    main st' = Collecting (S i) (dfs ++ [[]])) /\
     (main st = Finished ->
        main_df (self st) = aggregate P o (make_stock_list symbols) /\
        table (engine (self st)) = table (engine o) ++ [main_df (self st)] /\
        forall r, r ∈ main_df (self st) -> Name r <> stock t)) /\
  (index_name raw = None ->
     download_stock P o (stock t) = Some (Raise (KeyError "Date"), o) /\
     (forall df, pc t <> Returned df) /\
     (forall e, pc t = RaisedLate e -> e = KeyError "Date") /\
     main st <> Finished).
Proof.
  intros Hinit Hrun Hi HP Hnil.
  assert (forall df, pc t = Returned df -> normalize (stock t) raw = Ok df) as Hret.
  { intros df Hpc.
    destruct (returned_is_normalized _ _ _ _ _ _ _ _ Hrun Hi Hpc) as (raw' & HP' & Hn).
    congruence. }
  assert (forall e, pc t = RaisedLate e -> normalize (stock t) raw = Raise e) as Hlate.
  { intros e Hpc.
    destruct (raised_late_is_normalize_exception _ _ _ _ _ _ _ _ Hrun Hi Hpc)
      as (_ & raw' & HP' & Hn).
    congruence. }
  assert (download_stock P o (stock t) = Some (normalize (stock t) raw, o)) as Hds.
  { apply init_ok in Hinit. subst o. unfold download_stock. simpl in *.
    by rewrite HP. }
  split; [|split].
  - intros e Hpc.
    destruct (raised_is_provider_exception _ _ _ _ _ _ _ _ Hrun Hi Hpc) as [HP' _].
    congruence.
  - intros Hname. pose proof (normalize_Date (stock t) raw Hname) as Hn.
    rewrite Hnil in Hn. simpl in Hn.
    split; [by rewrite Hds, Hn|]. split; [|split; [|split]].
    + intros e Hpc. apply Hlate in Hpc. congruence.
    + intros df Hpc. apply Hret in Hpc. congruence.
    + intros dfs Hmain Hpc. simpl. unfold main_step. rewrite Hmain, Hi, Hpc.
      eexists. split; [done|]. done.
    + intros Hfin.
      destruct (finished_run _ _ _ _ _ Hrun Hfin) as (Hdf & _ & Htbl & _).
      split; [done|]. split; [done|].
      intros r [k Hk]%list_elem_of_lookup Hr. rewrite Hdf in Hk.
      apply aggregate_row_origin in Hk as (_ & _ & Hsome). apply Hsome.
      rewrite Hr. unfold series_of, task_result. by rewrite HP, Hn.
  - intros Hname. pose proof (normalize_unnamed (stock t) raw Hname) as Hn.
    split; [by rewrite Hds, Hn|]. split; [|split].
    + intros df Hpc. apply Hret in Hpc. congruence.
    + intros e Hpc. apply Hlate in Hpc. congruence.
    + intros Hfin.
      destruct (past_the_loop_all_returned _ _ _ _ _ Hrun) as [dfs Hall]; [auto|].
      destruct (Forall2_lookup_l _ _ _ _ _ Hall Hi) as (df & _ & Hdf).
      apply Hret in Hdf. congruence.
Qed.

Lemma no_data_is_returned_empty_witness :
  let st := after provider_no_data sample_self (Ok ["AAA"; "BBB"])
              (worker 7 0 ++ worker 7 1 ++ [Main; Main; Main; Main; Main]) in
  let st' := after provider_bbb_unnamed sample_self (Ok ["AAA"; "BBB"])
               (worker 7 0 ++ worker 7 1 ++ [Main; Main; Main]) in
  (download_stock provider_no_data sample_self "AAA" = Some (Ok [], sample_self) /\
   main st = Finished /\
   main_df (self st) = aggregate provider_no_data sample_self ["AAA"; "BBB"] /\
   table (engine (self st)) = [] ++ [main_df (self st)]) /\
  (download_stock provider_bbb_unnamed sample_self "BBB"
     = Some (Raise (KeyError "Date"), sample_self) /\
   fmap pc (tasks st') = [Returned [row_28 "AAA"]; RaisedLate (KeyError "Date")] /\
   main st' = Failed (KeyError "Date")).
Proof.
  intros st st'. split.
  - destruct (no_data_is_returned_empty sample_engine sample_now provider_no_data
                sample_self ["AAA"; "BBB"]
                (worker 7 0 ++ worker 7 1 ++ [Main; Main; Main; Main; Main])
                st 0 (mk_task "AAA" (Returned []) false) (prices_frame []))
      as (_ & Hdate & _).
    + vm_compute; reflexivity.
    + vm_compute; reflexivity.
    + vm_compute; reflexivity.
    + vm_compute; reflexivity.
    + vm_compute; reflexivity.
    + destruct (Hdate eq_refl) as (Hds & _ & _ & _ & Hfin).
      assert (main st = Finished) as Hmain by (vm_compute; reflexivity).
      destruct (Hfin Hmain) as (Hdf & Htbl & _).
      split; [exact Hds|]. split; [exact Hmain|].
      split; [exact Hdf|exact Htbl].
  - destruct (no_data_is_returned_empty sample_engine sample_now provider_bbb_unnamed
                sample_self ["AAA"; "BBB"]
                (worker 7 0 ++ worker 7 1 ++ [Main; Main; Main])
                st' 1 (mk_task "BBB" (RaisedLate (KeyError "Date")) false)
                (mk_raw_frame None []))
      as (_ & _ & Hnone).
    + vm_compute; reflexivity.
    + vm_compute; reflexivity.
    + vm_compute; reflexivity.
    + vm_compute; reflexivity.
    + vm_compute; reflexivity.
    + destruct (Hnone eq_refl) as (Hds & _).
      split; [exact Hds|]. split; vm_compute; reflexivity.
Defined.

(** ** The semaphore *)

Lemma count_le_Forall f g ts :
  Forall (fun t => f t = true -> g t = true) ts -> count f ts <= count g ts.
Proof.
  induction 1 as [|t ts Hfg _ IH]; [done|].
  rewrite !count_cons. destruct (f t), (g t); simpl; lia.
Qed.

Lemma count_pos f (ts : list task) i t :
  ts !! i = Some t -> f t = true -> 1 <= count f ts.
Proof.
  revert i. induction ts as [|u ts IH]; intros [|i] Hi Hf; simplify_eq/=.
  - rewrite count_cons, Hf. simpl. lia.
  - rewrite count_cons. specialize (IH _ Hi Hf). lia.
Qed.

Lemma cancel_after_lookup k (ts : list task) i t :
  ts !! i = Some t ->
  cancel_after k ts !! i = Some (if decide (i <= k) then t else cancel t).
Proof.
  intros Hi. pose proof (lookup_lt_Some _ _ _ Hi) as Hlt.
  unfold cancel_after. destruct (decide (i <= k)) as [Hle|Hgt].
  - rewrite lookup_app_l by (rewrite length_take; lia).
    by rewrite lookup_take_lt by lia.
  - rewrite lookup_app_r by (rewrite length_take; lia).
    rewrite length_take, list_lookup_fmap, lookup_drop.
    replace (S k + (i - S k `min` length ts)) with i by lia.
    by rewrite Hi.
Qed.

(** A task that has raised stays as it is. *)
Lemma raised_persists_step P st a st' i t e :
  step P st a = Some st' ->
  tasks st !! i = Some t -> pc t = Raised e -> tasks st' !! i = Some t.
Proof.
  intros Hstep Hi Hpc.
  assert (cancel t = t) as Hcancel by (unfold cancel; by rewrite Hpc).
  destruct a as [j|].
  - destruct (decide (j = i)) as [->|Hne].
    + simpl in Hstep. unfold worker_step in Hstep. rewrite Hi, Hpc in Hstep. done.
    + step_cases Hstep; simpl; by rewrite list_lookup_insert_ne.
  - step_cases Hstep; simpl; try done.
    all: rewrite (cancel_after_lookup _ _ _ _ Hi), Hcancel; by case_decide.
Qed.

Lemma raised_persists P sched st st' i t e :
  run P sched st = Some st' ->
  tasks st !! i = Some t -> pc t = Raised e -> tasks st' !! i = Some t.
Proof.
  revert st. induction sched as [|a sched IH]; intros st Hrun Hi Hpc; simpl in Hrun.
  - by simplify_eq.
  - destruct (step P st a) as [st1|] eqn:E; [|done].
    eauto using raised_persists_step.
Qed.

(** The pool: at most [max_workers] tasks are running. *)
Lemma running_cancel t : running (cancel t) = running t.
Proof. unfold cancel, running. destruct (pc t) eqn:E; simpl; by rewrite ?E. Qed.

Lemma pool_bound_step P st a st' :
  count running (tasks st) <= max_workers ->
  step P st a = Some st' ->
  count running (tasks st') <= max_workers.
Proof.
  intros Hb Hstep. destruct a as [i|].
  - step_cases Hstep.
    all: match goal with H : _ !! _ = Some ?t, Hpc : pc ?t = _ |- _ =>
           pose proof (fun t' => count_insert running _ _ _ t' H) as Hcnt;
           assert (running t = match pc t with
                                | AtAcquire | Downloading | AtRelease _
                                | AtSetName _ | AtResetIndex _ | AtToDate _ => true
                                | _ => false
                                end) as Hrun by done;
           rewrite Hpc in Hrun; rewrite Hrun in Hcnt
         end.
    all: simpl; match goal with |- context [<[_ := ?t']> _] =>
                  specialize (Hcnt t'); simpl in Hcnt
                end; try lia.
    apply andb_true_iff in Heqb as [_ Hfree]. apply Nat.ltb_lt in Hfree.
    unfold count in *. lia.
  - step_cases Hstep; simpl; try done.
    all: unfold cancel_after;
      rewrite count_app, count_cancel by apply running_cancel;
      by rewrite <- count_app, take_drop.
Qed.

Lemma pool_bound P o symbols sched st :
  begin_download P o (Ok symbols) sched = Some st ->
  count running (tasks st) <= max_workers.
Proof.
  intros Hrun.
  eapply (run_invariant P (fun st => count running (tasks st) <= max_workers));
    [|idtac|exact Hrun].
  - intros. by eapply pool_bound_step.
  - simpl. assert (count running (fmap (fun s => mk_task s Queued false)
                                    (make_stock_list symbols)) = 0) as ->; [|lia].
    induction (make_stock_list symbols) as [|s l IH]; [done|].
    by rewrite fmap_cons, count_cons, IH.
Qed.

(** The slots are conserved: the counter plus the slots held is the
    initial value of the semaphore. *)
Lemma slots_conserved eng now P o symbols sched st :
  __init__ eng now = Ok o ->
  begin_download P o (Ok symbols) sched = Some st ->
  semaphore (self st) + count holds (tasks st) = 1.
Proof.
  intros Hinit Hrun. apply init_ok in Hinit.
  apply inv_begin_download in Hrun as [_ _ _ _ _ Hsl _ _].
  subst o. done.
Qed.

(** C4: the semaphore is created with one slot and the pool with ten
    workers; throughout a run at most ten tasks are running and at most one
    provider call is in flight; a task in or past its normalization holds no
    slot.  When the provider call of a task returns, the task is at its
    release with the slot still taken; its next step is the release, which
    never blocks and frees the slot, and only then comes line 41: the frame
    is still as the provider returned it. *)
Theorem one_provider_call_at_a_time eng now o P symbols sched st :
  __init__ eng now = Ok o ->
  begin_download P o (Ok symbols) sched = Some st ->
  semaphore o = 1 /\ max_workers = 10 /\
  count running (tasks st) <= max_workers /\
  count in_flight (tasks st) <= 1 /\
  semaphore (self st) + count holds (tasks st) = 1 /\
  Forall (fun t => normalizing t = true -> holds t = false) (tasks st) /\
  (forall i t df, tasks st !! i = Some t -> pc t = AtRelease df ->
     exists st', step P st (Worker i) = Some st' /\
       semaphore (self st') = S (semaphore (self st)) /\
       tasks st' !! i = Some (mk_task (stock t) (AtSetName df) false)) /\
  (forall i t df, tasks st !! i = Some t -> pc t = Downloading ->
     P (stock t) (start_time o) (current_time o) = Ok df ->
     exists st1 st2,
       step P st (Worker i) = Some st1 /\
       tasks st1 !! i = Some (mk_task (stock t) (AtRelease df) true) /\
       semaphore (self st1) = 0 /\
       step P st1 (Worker i) = Some st2 /\
       tasks st2 !! i = Some (mk_task (stock t) (AtSetName df) false) /\
       semaphore (self st2) = 1 /\
       count holds (tasks st2) = 0).
Proof.
  intros Hinit Hrun.
  pose proof (slots_conserved _ _ _ _ _ _ _ Hinit Hrun) as Hslots.
  pose proof (inv_begin_download _ _ _ _ _ Hrun) as [Hc Hs _ _ Ht _ _ _].
  split; [by rewrite (init_ok _ _ _ Hinit)|]. split; [done|].
  split; [by eapply pool_bound|].
  split; [|split; [done|split; [|split]]].
  - assert (count in_flight (tasks st) <= count holds (tasks st)); [|lia].
    apply count_le_Forall. eapply Forall_impl; [exact Ht|].
    intros t. unfold task_inv, in_flight. by destruct (pc t).
  - eapply Forall_impl; [exact Ht|].
    intros t. unfold task_inv, normalizing. destruct (pc t); try done; tauto.
  - intros i t df Hi Hpc. unfold step, worker_step. rewrite Hi, Hpc.
    eexists. split; [done|]. simpl. split; [done|].
    apply list_lookup_insert_eq. by eapply lookup_lt_Some.
  - intros i t df Hi Hpc HP.
    pose proof (lookup_lt_Some _ _ _ Hi) as Hlt.
    pose proof (Forall_lookup_1 _ _ _ _ Ht Hi) as Hinv.
    unfold task_inv in Hinv. rewrite Hpc in Hinv.
    pose proof (count_pos holds _ _ _ Hi Hinv) as Hpos.
    assert (semaphore (self st) = 0) as Hsem by lia.
    destruct (step P st (Worker i)) as [st1|] eqn:Hstep1; simpl in Hstep1;
      unfold worker_step in Hstep1; rewrite Hi, Hpc, Hs, Hc, HP in Hstep1;
      [|done].
    injection Hstep1 as <-.
    eexists. eexists. split; [reflexivity|].
    split; [rewrite set_task_lookup by done; by rewrite Hinv|].
    split; [done|].
    unfold step, worker_step. rewrite set_task_lookup by done. simpl.
    split; [reflexivity|]. simpl.
    split; [apply list_lookup_insert_eq; by rewrite length_insert|].
    split; [by rewrite Hsem|].
    rewrite list_insert_insert_eq.
    pose proof (count_insert holds _ _ _ (mk_task (stock t) (AtSetName df) false) Hi)
      as Hcnt.
    rewrite Hinv in Hcnt. simpl in Hcnt. lia.
Qed.

Lemma one_provider_call_at_a_time_witness :
  let st := after provider_one_row sample_self (Ok ["AAA"; "BBB"; "CCC"])
              (worker 2 0 ++ worker 1 1 ++ worker 1 2) in
  fmap pc (tasks st) = [Downloading; AtAcquire; AtAcquire] /\
  count running (tasks st) = 3 /\
  count in_flight (tasks st) <= 1 /\
  semaphore (self st) + count holds (tasks st) = 1 /\
  exists st1 st2,
    step provider_one_row st (Worker 0) = Some st1 /\
    semaphore (self st1) = 0 /\
    step provider_one_row st1 (Worker 0) = Some st2 /\
    tasks st2 !! 0 = Some (mk_task "AAA"
                             (AtSetName (prices_frame [mk_raw day_28 sample_px]))
                             false) /\
    semaphore (self st2) = 1.
Proof.
  intros st. split; [reflexivity|]. split; [reflexivity|].
  destruct (one_provider_call_at_a_time sample_engine sample_now sample_self
              provider_one_row ["AAA"; "BBB"; "CCC"]
              (worker 2 0 ++ worker 1 1 ++ worker 1 2) st)
    as (_ & _ & _ & Hfly & Hslots & _ & _ & Hrel);
    [vm_compute; reflexivity|vm_compute; reflexivity|].
  split; [exact Hfly|]. split; [exact Hslots|].
  destruct (Hrel 0 (mk_task "AAA" Downloading true)
              (prices_frame [mk_raw day_28 sample_px]))
    as (st1 & st2 & H1 & _ & Hsem1 & H2 & Hi2 & Hsem2 & _);
    [vm_compute; reflexivity..|].
  exists st1, st2.
  split; [exact H1|]. split; [exact Hsem1|]. split; [exact H2|].
  split; [exact Hi2|exact Hsem2].
Defined.

(** C2 fails on the code: there is no release on the path of an exception.
    Once the provider call of a task has raised, the task still holds its
    slot, the counter of the semaphore is zero, and in every continuation of
    the run it stays zero and every task that reaches its acquire is blocked
    there. *)
Theorem slot_leaked_when_provider_raises eng now o P symbols sched st i t e :
  __init__ eng now = Ok o ->
  begin_download P o (Ok symbols) sched = Some st ->
  tasks st !! i = Some t -> pc t = Raised e ->
  download_stock P o (stock t) = Some (Raise e, with_semaphore o 0) /\
  holds t = true /\ semaphore (self st) = 0 /\
  forall sched' st', run P sched' st = Some st' ->
    semaphore (self st') = 0 /\ tasks st' !! i = Some t /\
    forall j u, tasks st' !! j = Some u -> pc u = AtAcquire ->
      step P st' (Worker j) = None.
Proof.
  intros Hinit Hrun Hi Hpc.
  destruct (raised_is_provider_exception _ _ _ _ _ _ _ _ Hrun Hi Hpc) as [HP Hh].
  assert (forall sched' st', run P sched' st = Some st' ->
            semaphore (self st') = 0 /\ tasks st' !! i = Some t) as Hcont.
  { intros sched' st' Hrun'.
    pose proof (raised_persists _ _ _ _ _ _ _ Hrun' Hi Hpc) as Hi'.
    split; [|done].
    assert (begin_download P o (Ok symbols) (sched ++ sched') = Some st') as Hall.
    { unfold begin_download in *. by rewrite run_app, Hrun. }
    pose proof (slots_conserved _ _ _ _ _ _ _ Hinit Hall).
    pose proof (count_pos holds _ _ _ Hi' Hh). lia. }
  split; [|split; [done|split]].
  - pose proof (init_ok _ _ _ Hinit) as ->. unfold download_stock. simpl in *.
    by rewrite HP.
  - by apply (Hcont [] st).
  - intros sched' st' Hrun'. destruct (Hcont _ _ Hrun') as [Hsem Hi'].
    split; [done|]. split; [done|].
    intros j u Hj Hu. simpl. unfold worker_step. by rewrite Hj, Hu, Hsem.
Qed.

Lemma slot_leaked_when_provider_raises_witness :
  let st := after provider_aaa_raises sample_self (Ok ["AAA"; "BBB"])
              (worker 3 0 ++ worker 1 1 ++ [Main]) in
  fmap pc (tasks st) = [Raised (Exception "upstream"); AtAcquire] /\
  main st = Unwinding (Exception "upstream") /\
  stuck provider_aaa_raises st = true /\
  semaphore (self st) = 0 /\
  forall sched' st', run provider_aaa_raises sched' st = Some st' ->
    semaphore (self st') = 0.
Proof.
  intros st. split; [reflexivity|]. split; [reflexivity|]. split; [reflexivity|].
  destruct (slot_leaked_when_provider_raises sample_engine sample_now sample_self
              provider_aaa_raises ["AAA"; "BBB"]
              (worker 3 0 ++ worker 1 1 ++ [Main]) st 0
              (mk_task "AAA" (Raised (Exception "upstream")) true)
              (Exception "upstream"))
    as (_ & _ & Hsem & Hcont); [reflexivity..|].
  split; [exact Hsem|]. intros sched' st' Hrun. by apply (Hcont sched' st').
Defined.

(** ** The orchestrator *)

(** A symbol whose task raises has a task that never returns. *)
Lemma failing_symbol_blocks_the_loop P o symbols sched st s e :
  s ∈ make_stock_list symbols ->
  task_result P o s = Raise e ->
  begin_download P o (Ok symbols) sched = Some st ->
  main st <> Finished /\ main st <> AtToSql /\ forall dfs, main st <> AtConcat dfs.
Proof.
  intros Hs HP Hrun.
  assert (~ exists dfs, Forall2 returned (tasks st) dfs) as Hnot.
  { intros [dfs Hall].
    pose proof (inv_begin_download _ _ _ _ _ Hrun) as [_ _ _ Hst Ht _ _ _].
    rewrite <- Hst in Hs. apply list_elem_of_fmap in Hs as (t & -> & Hin).
    apply list_elem_of_lookup in Hin as [i Hi].
    destruct (Forall2_lookup_l _ _ _ _ _ Hall Hi) as (df & _ & Hret).
    destruct (task_over _ _ _ _ _ _ _ Hrun Hi) as [Hok _].
    specialize (Hok df Hret). congruence. }
  repeat split; intros; intros Hmain; apply Hnot;
    eapply past_the_loop_all_returned; eauto.
Qed.

(** C1, as the spec has it, fails: with BBB failing and AAA and CCC fetched,
    [begin_download] raises the exception of BBB; the result of CCC is there
    and is never collected, nothing is concatenated and nothing is written. *)
Lemma failing_symbol_aborts_the_run :
  let sched := [Worker 0; Worker 1; Worker 2] ++ worker 6 0 ++ worker 6 2
               ++ worker 2 1 ++ [Main; Main; Main] in
  let st := after provider_bbb_raises sample_self (Ok ["AAA"; "BBB"; "CCC"]) sched in
  begin_download provider_bbb_raises sample_self (Ok ["AAA"; "BBB"; "CCC"]) sched
    = Some st /\
  fmap pc (tasks st) = [Returned [row_28 "AAA"]; Raised (Exception "upstream");
                        Returned [row_28 "CCC"]] /\
  main st = Failed (Exception "upstream") /\
  stuck provider_bbb_raises st = true /\
  main_df (self st) = [] /\
  table (engine (self st)) = [].
Proof.
  intros sched st.
  split; [vm_compute; reflexivity|]. split; [vm_compute; reflexivity|].
  split; [vm_compute; reflexivity|]. split; [vm_compute; reflexivity|].
  split; vm_compute; reflexivity.
Qed.

(** C1, amended: a failure of a task is not caught and no failure record is
    made.  When the task of some symbol fails, in the provider call or in
    lines 40-47, the run never gets past the loop of lines 65-66: nothing is
    concatenated, [main_df] and the engine stay as the constructor left
    them, and [begin_download] does not return. *)
Theorem task_failure_aborts_the_run P o symbols sched st s e :
  s ∈ make_stock_list symbols ->
  task_result P o s = Raise e ->
  begin_download P o (Ok symbols) sched = Some st ->
  main st <> Finished /\ main st <> AtToSql /\
  (forall dfs, main st <> AtConcat dfs) /\
  engine (self st) = engine o /\ main_df (self st) = main_df o.
Proof.
  intros Hs HP Hrun.
  destruct (failing_symbol_blocks_the_loop _ _ _ _ _ _ _ Hs HP Hrun)
    as (Hfin & Hsql & Hcat).
  split; [done|]. split; [done|]. split; [done|].
  pose proof (inv_begin_download _ _ _ _ _ Hrun) as [_ _ _ Hst Ht _ _ Hm].
  unfold main_inv in Hm.
  destruct (main st) as [j dfs|e1|dfs| | |e1] eqn:Hmain; try done.
  - tauto.
  - tauto.
  - by destruct (Hcat dfs).
  - destruct Hm as [Hm|((dfs & Hall & _) & _)]; [tauto|]. exfalso.
    rewrite <- Hst in Hs. apply list_elem_of_fmap in Hs as (t & -> & Hin).
    apply list_elem_of_lookup in Hin as [i Hi].
    destruct (Forall2_lookup_l _ _ _ _ _ Hall Hi) as (df & _ & Hret).
    destruct (task_over _ _ _ _ _ _ _ Hrun Hi) as [Hok _].
    specialize (Hok df Hret). congruence.
Qed.

Lemma task_failure_aborts_the_run_witness :
  let st := after provider_bbb_raises sample_self (Ok ["AAA"; "BBB"; "CCC"])
              ([Worker 0; Worker 1; Worker 2] ++ worker 6 0 ++ worker 6 2
               ++ worker 2 1 ++ [Main; Main; Main]) in
  let st' := after provider_bbb_unnamed sample_self (Ok ["AAA"; "BBB"; "CCC"])
               (worker 7 0 ++ worker 7 1 ++ worker 7 2 ++ [Main; Main; Main]) in
  (main st = Failed (Exception "upstream") /\ main st <> Finished /\
   engine (self st) = sample_engine /\ main_df (self st) = []) /\
  (main st' = Failed (KeyError "Date") /\ main st' <> Finished /\
   engine (self st') = sample_engine /\ main_df (self st') = []).
Proof.
  intros st st'. split.
  - destruct (task_failure_aborts_the_run provider_bbb_raises sample_self
                ["AAA"; "BBB"; "CCC"]
                ([Worker 0; Worker 1; Worker 2] ++ worker 6 0 ++ worker 6 2
                 ++ worker 2 1 ++ [Main; Main; Main])
                st "BBB" (Exception "upstream"))
      as (Hfin & _ & _ & Heng & Hdf).
    + vm_compute. apply list_elem_of_further, list_elem_of_here.
    + vm_compute; reflexivity.
    + vm_compute; reflexivity.
    + split; [vm_compute; reflexivity|]. split; [exact Hfin|].
      split; [exact Heng|exact Hdf].
  - destruct (task_failure_aborts_the_run provider_bbb_unnamed sample_self
                ["AAA"; "BBB"; "CCC"]
                (worker 7 0 ++ worker 7 1 ++ worker 7 2 ++ [Main; Main; Main])
                st' "BBB" (KeyError "Date"))
      as (Hfin & _ & _ & Heng & Hdf).
    + vm_compute. apply list_elem_of_further, list_elem_of_here.
    + vm_compute; reflexivity.
    + vm_compute; reflexivity.
    + split; [vm_compute; reflexivity|]. split; [exact Hfin|].
      split; [exact Heng|exact Hdf].
Defined.

(** C3, as the spec has it, fails: with no symbols the run ends with the
    ValueError of [pd.concat], and nothing is written to the table. *)
Lemma empty_symbol_list_raises :
  let st := after provider_one_row sample_self (Ok []) [Main; Main] in
  begin_download provider_one_row sample_self (Ok []) [Main; Main] = Some st /\
  main st = Failed (ValueError "No objects to concatenate") /\
  stuck provider_one_row st = true /\
  table (engine (self st)) = [].
Proof.
  intros st.
  split; [vm_compute; reflexivity|]. split; [vm_compute; reflexivity|].
  split; vm_compute; reflexivity.
Qed.

(** C3, amended: when the symbol list is empty, [begin_download] raises the
    ValueError that [pd.concat] raises on an empty list; the replace of the
    table is never invoked and the run never returns. *)
Theorem no_symbols_raises_before_replace P o sched st :
  begin_download P o (Ok []) sched = Some st ->
  engine (self st) = engine o /\ main_df (self st) = main_df o /\
  main st <> Finished /\ main st <> AtToSql /\
  (stuck P st = true -> main st = Failed (ValueError "No objects to concatenate")) /\
  exists st', begin_download P o (Ok []) [Main; Main] = Some st' /\
              main st' = Failed (ValueError "No objects to concatenate") /\
              stuck P st' = true.
Proof.
  intros Hrun. unfold begin_download in *.
  assert (st = submit_all o [] \/
          st = with_main (submit_all o []) (AtConcat []) \/
          st = with_main (submit_all o [])
                 (Failed (ValueError "No objects to concatenate"))) as Hst.
  { destruct sched as [|[i|] sched]; simplify_eq/=; [by left|].
    destruct sched as [|[i|] sched]; simplify_eq/=; [by right; left|].
    destruct sched as [|[i|] sched]; simplify_eq/=. by right; right. }
  destruct Hst as [-> | [-> | ->]]; simpl; repeat split; try done; eauto.
Qed.

Lemma no_symbols_raises_before_replace_witness :
  let st := after provider_one_row sample_self (Ok []) [Main; Main] in
  engine (self st) = sample_engine /\ main st <> Finished /\
  main st = Failed (ValueError "No objects to concatenate").
Proof.
  intros st.
  destruct (no_symbols_raises_before_replace provider_one_row sample_self
              [Main; Main] st)
    as (Heng & _ & Hfin & _ & Hstuck & _); [reflexivity|].
  split; [exact Heng|]. split; [exact Hfin|]. apply Hstuck. reflexivity.
Defined.

(** ** [download_stock] and the steps of a task *)

(** X12: a task at its acquire, with a free slot and a provider that
    answers, is over after at most six steps in a row of its own: it holds
    the frame that lines 40-47 give, or the exception they raise.  Either
    way the counter of the semaphore is back at its value, and the outcome
    and the object are those of [download_stock]. *)
Lemma download_stock_returns P st i t n raw :
  tasks st !! i = Some t -> pc t = AtAcquire ->
  semaphore (self st) = S n ->
  P (stock t) (start_time (self st)) (current_time (self st)) = Ok raw ->
  exists k st',
    k <= 6 /\ run P (worker k i) st = Some st' /\
    step P st' (Worker i) = None /\
    tasks st' !! i = Some (mk_task (stock t)
                             match normalize (stock t) raw with
                             | Ok df => Returned df
                             | Raise e => RaisedLate e
                             end false) /\
    semaphore (self st') = S n /\
    download_stock P (self st) (stock t)
      = Some (normalize (stock t) raw, self st').
Proof.
  intros Hi Hpc Hsem HP. pose proof (lookup_lt_Some _ _ _ Hi) as Hlt.
  assert (forall st0 u, i < length (tasks st0) ->
            match pc u with Returned _ | RaisedLate _ => True | _ => False end ->
            worker_step P (set_task st0 i u) i = None) as Hover.
  { intros st0 u Hlt0 Hu. unfold worker_step.
    rewrite set_task_lookup by done. by destruct (pc u). }
  unfold download_stock, normalize. rewrite Hsem, HP.
  destruct (reset_index (set_Name (stock t) raw)) as [df1|e1] eqn:Hreset;
    [destruct (to_date_column df1) as [df2|e2] eqn:Hdate|].
  1, 2: exists 6. 3: exists 5.
  all: unfold worker, run, step, repeat.
  all: unfold worker_step at 1; rewrite Hi, Hpc, Hsem.
  all: unfold worker_step at 1; rewrite set_task_lookup by done; simpl pc; cbv iota;
    simpl stock; simpl start_time; simpl current_time; rewrite HP.
  all: unfold worker_step at 1;
    rewrite set_task_lookup by (simpl; by rewrite length_insert);
    simpl pc; cbv iota.
  all: unfold worker_step at 1;
    rewrite set_task_lookup by (simpl; by rewrite !length_insert);
    simpl pc; cbv iota.
  all: unfold worker_step at 1;
    rewrite set_task_lookup by (simpl; by rewrite !length_insert);
    simpl pc; cbv iota; simpl stock; rewrite Hreset.
  1, 2: unfold worker_step at 1;
    rewrite set_task_lookup by (simpl; by rewrite !length_insert);
    simpl pc; cbv iota; rewrite Hdate.
  all: eexists; split; [lia|]; split; [done|].
  all: split; [apply Hover; [simpl; by rewrite !length_insert|done]|].
  all: split; [rewrite set_task_lookup by (simpl; by rewrite !length_insert); done|].
  all: done.
Qed.

(** When the provider raises, the task is over after two steps, and the
    object is left with the slot taken. *)
Lemma download_stock_raises P st i t n e :
  tasks st !! i = Some t -> pc t = AtAcquire ->
  semaphore (self st) = S n ->
  P (stock t) (start_time (self st)) (current_time (self st)) = Raise e ->
  exists st',
    run P (worker 2 i) st = Some st' /\
    tasks st' !! i = Some (mk_task (stock t) (Raised e) true) /\
    semaphore (self st') = n /\
    step P st' (Worker i) = None /\
    download_stock P (self st) (stock t) = Some (Raise e, self st').
Proof.
  intros Hi Hpc Hsem HP. pose proof (lookup_lt_Some _ _ _ Hi) as Hlt.
  unfold download_stock. rewrite Hsem, HP.
  unfold worker, run, step, repeat.
  unfold worker_step at 1. rewrite Hi, Hpc, Hsem.
  unfold worker_step at 1. rewrite set_task_lookup by done. simpl pc. cbv iota.
  simpl stock. simpl start_time. simpl current_time. rewrite HP.
  eexists. split; [done|].
  assert (forall st0 u, i < length (tasks st0) -> pc u = Raised e ->
            worker_step P (set_task st0 i u) i = None) as Hover.
  { intros st0 u Hlt0 Hu. unfold worker_step.
    rewrite set_task_lookup by done. by rewrite Hu. }
  split; [|split; [done|split; [|done]]].
  - rewrite set_task_lookup by (simpl; by rewrite !length_insert). done.
  - apply Hover; [simpl; by rewrite !length_insert|done].
Qed.

(** * Further properties *)

(** ** A run is finite *)

Lemma sum_rank_insert (ts : list task) i t t' :
  ts !! i = Some t ->
  sum_list_with task_rank (<[i := t']> ts) + task_rank t =
  sum_list_with task_rank ts + task_rank t'.
Proof.
  revert i. induction ts as [|u ts IH]; intros [|i] H; simplify_eq/=; [lia|].
  specialize (IH _ H). lia.
Qed.

Lemma task_rank_cancel t : task_rank (cancel t) <= task_rank t.
Proof.
  unfold cancel, task_rank. destruct (pc t) eqn:E; simpl; rewrite ?E; lia.
Qed.

Lemma sum_rank_cancel_after i ts :
  sum_list_with task_rank (cancel_after i ts) <= sum_list_with task_rank ts.
Proof.
  unfold cancel_after. rewrite <- (take_drop (S i) ts) at 3.
  rewrite !sum_list_with_app.
  assert (sum_list_with task_rank (cancel <$> drop (S i) ts)
          <= sum_list_with task_rank (drop (S i) ts)); [|lia].
  induction (drop (S i) ts) as [|t l IH]; [done|].
  rewrite fmap_cons. simpl. pose proof (task_rank_cancel t). lia.
Qed.

Lemma length_cancel_after i (ts : list task) :
  length (cancel_after i ts) = length ts.
Proof.
  unfold cancel_after. rewrite length_app, length_fmap, <- length_app.
  by rewrite take_drop.
Qed.

(** Every step uses up at least one of the steps left. *)
Lemma steps_left_decreases P st a st' :
  step P st a = Some st' -> steps_left st' < steps_left st.
Proof.
  intros Hstep. unfold steps_left. destruct a as [i|].
  - step_cases Hstep.
    all: match goal with H : _ !! _ = Some ?t, Hpc : pc ?t = _ |- _ =>
           pose proof (fun t' => sum_rank_insert _ _ _ t' H) as Hsum;
           assert (task_rank t = match pc t with
                                  | Queued => 7 | AtAcquire => 6
                                  | Downloading => 5 | AtRelease _ => 4
                                  | AtSetName _ => 3 | AtResetIndex _ => 2
                                  | AtToDate _ => 1 | _ => 0
                                  end) as Hrank by done;
           rewrite Hpc in Hrank; rewrite Hrank in Hsum
         end.
    all: simpl; rewrite length_insert;
      match goal with |- context [<[_ := ?t']> _] =>
        specialize (Hsum t');
        let r := eval cbv [task_rank pc] in (task_rank t') in
        change (task_rank t') with r in Hsum
      end; lia.
  - step_cases Hstep; simpl; try lia.
    all: rewrite ?length_cancel_after;
      pose proof (sum_rank_cancel_after i (tasks st));
      match goal with H : _ !! _ = Some _ |- _ =>
        apply lookup_lt_Some in H end; lia.
Qed.

Lemma run_steps_left P sched st st' :
  run P sched st = Some st' -> length sched + steps_left st' <= steps_left st.
Proof.
  revert st. induction sched as [|a sched IH]; intros st Hrun; simpl in Hrun.
  - simplify_eq. simpl. lia.
  - destruct (step P st a) as [st1|] eqn:E; [|done].
    apply steps_left_decreases in E. apply IH in Hrun. simpl. lia.
Qed.

Lemma steps_left_submit_all o symbols :
  steps_left (submit_all o symbols) = 8 * length symbols + 3.
Proof.
  unfold steps_left, submit_all, make_stock_list. simpl.
  rewrite !length_fmap.
  assert (forall l : list string,
            sum_list_with task_rank ((fun s => mk_task s Queued false) <$> l)
            = 7 * length l) as ->.
  { induction l as [|s l IH]; [done|]. rewrite fmap_cons. simpl.
    rewrite IH. unfold task_rank. simpl. lia. }
  rewrite length_fmap. lia.
Qed.

(** X1: a run of [begin_download] is finite.  With n symbols no schedule
    has more than 8 n + 3 steps: seven for each task, one for each result
    the main thread takes, three for the end of the loop, the concatenation
    and the write. *)
Theorem every_run_is_finite P o symbols sched st :
  begin_download P o (Ok symbols) sched = Some st ->
  length sched + steps_left st <= 8 * length symbols + 3.
Proof.
  intros Hrun. apply run_steps_left in Hrun.
  by rewrite steps_left_submit_all in Hrun.
Qed.

Lemma every_run_is_finite_witness :
  length (worker 7 0 ++ worker 7 1 ++ [Main; Main; Main; Main; Main])
  + steps_left (after provider_one_row sample_self (Ok ["AAA"; "BBB"])
                  (worker 7 0 ++ worker 7 1 ++ [Main; Main; Main; Main; Main]))
  <= 8 * 2 + 3.
Proof.
  apply (every_run_is_finite provider_one_row sample_self ["AAA"; "BBB"]
           (worker 7 0 ++ worker 7 1 ++ [Main; Main; Main; Main; Main])).
  vm_compute; reflexivity.
Defined.

(** ** No deadlock while the provider answers *)

Lemma stuck_spec P st : stuck P st = true <-> forall a, step P st a = None.
Proof.
  unfold stuck, enabled. rewrite andb_true_iff, forallb_forall. split.
  - intros [Hmain Hworkers] [i|].
    + destruct (decide (i < length (tasks st))) as [Hlt|Hge].
      * specialize (Hworkers i). rewrite in_seq in Hworkers.
        destruct (step P st (Worker i)); [|done].
        by specialize (Hworkers ltac:(lia)).
      * simpl. unfold worker_step. by rewrite lookup_ge_None_2 by lia.
    + by destruct (step P st Main).
  - intros Hnone. split; [by rewrite Hnone|]. intros i _. by rewrite Hnone.
Qed.

Lemma existsb_false_Forall {A} (f : A -> bool) (l : list A) :
  Forall (fun x => f x = false) l -> existsb f l = false.
Proof. induction 1 as [|x l Hx _ IH]; simpl; [done|]. by rewrite Hx, IH. Qed.

Lemma forallb_true_Forall {A} (f : A -> bool) (l : list A) :
  Forall (fun x => f x = true) l -> forallb f l = true.
Proof. induction 1 as [|x l Hx _ IH]; simpl; [done|]. by rewrite Hx, IH. Qed.

Lemma count_zero f (ts : list task) :
  Forall (fun t => f t = false) ts -> count f ts = 0.
Proof.
  induction 1 as [|t ts Hf _ IH]; [done|]. by rewrite count_cons, Hf, IH.
Qed.

(** Futures are cancelled only when the main thread is leaving with an
    exception. *)
Lemma cancelled_only_when_unwinding P o symbols sched st :
  begin_download P o (Ok symbols) sched = Some st ->
  (forall e, main st <> Unwinding e) -> (forall e, main st <> Failed e) ->
  Forall (fun t => cancelled t = false) (tasks st).
Proof.
  intros Hrun.
  eapply (run_invariant P (fun st =>
            (forall e, main st <> Unwinding e) -> (forall e, main st <> Failed e) ->
            Forall (fun t => cancelled t = false) (tasks st))); [| |exact Hrun].
  - clear. intros st a st' IH Hstep. destruct a as [i|].
    + step_cases Hstep; simpl; intros HU HF;
        (apply Forall_insert; [by apply IH|done]).
    + step_cases Hstep; simpl; intros HU HF; try done.
      all: try (by destruct (HU e)). all: try (by destruct (HF e)).
      all: by apply IH.
  - intros _ _. simpl. apply Forall_fmap, Forall_true. done.
Qed.

Lemma moving_can_step P st j u :
  tasks st !! j = Some u -> moving u = true ->
  exists st', worker_step P st j = Some st'.
Proof.
  intros Hj Hu. unfold worker_step. rewrite Hj. unfold moving in Hu.
  destruct (pc u); try done; eauto.
  - destruct (P _ _ _); eauto.
  - destruct (reset_index _); eauto.
  - destruct (to_date_column _); eauto.
Qed.

Lemma succeeds_answers P o s : succeeds P o s = true -> answers P o s = true.
Proof. unfold succeeds, answers, task_result. by destruct (P _ _ _). Qed.

Section answered.
Variables (eng : sql_engine) (now : datetime) (o : StockInfoDownloader).
Variables (P : provider) (symbols : list string).
Hypothesis Hinit : __init__ eng now = Ok o.
Hypothesis Hanswers :
  Forall (fun s => answers P o s = true) (make_stock_list symbols).

(** No task is left holding the slot. *)
Lemma nothing_raised sched st t e :
  begin_download P o (Ok symbols) sched = Some st ->
  t ∈ tasks st -> pc t <> Raised e.
Proof using Hanswers.
  intros Hrun Hin Hpc.
  pose proof (inv_begin_download _ _ _ _ _ Hrun) as [_ _ _ Hst Ht _ _ _].
  rewrite Forall_forall in Ht. specialize (Ht _ Hin).
  unfold task_inv in Ht. rewrite Hpc in Ht. destruct Ht as [_ HP].
  rewrite Forall_forall in Hanswers. specialize (Hanswers (stock t)).
  unfold answers in Hanswers. rewrite HP in Hanswers.
  assert (false = true); [|done]. apply Hanswers. rewrite <- Hst.
  apply list_elem_of_fmap. eauto.
Qed.

(** When a task is running, some task can step: one between its acquire
    and its end, or else one at its acquire, the slot being free. *)
Lemma running_task_or_another_can_step sched st i t :
  begin_download P o (Ok symbols) sched = Some st ->
  tasks st !! i = Some t -> running t = true ->
  exists j st', worker_step P st j = Some st'.
Proof using Hinit Hanswers.
  intros Hrun Hi Hrunning.
  pose proof (slots_conserved _ _ _ _ _ _ _ Hinit Hrun) as Hslots.
  pose proof (inv_begin_download _ _ _ _ _ Hrun) as [_ _ _ _ Ht _ _ _].
  destruct (decide (Exists (fun u => moving u = true) (tasks st))) as [Hmov|Hmov].
  { apply Exists_exists in Hmov as (u & Hin & Hu).
    apply list_elem_of_lookup in Hin as [j Hj].
    destruct (moving_can_step P st j u Hj Hu) as [st' Hst']. eauto. }
  apply not_Exists_Forall in Hmov; [|apply _].
  assert (count holds (tasks st) = 0) as Hzero.
  { apply count_zero. rewrite Forall_forall in *.
    intros v Hv. specialize (Ht v Hv). specialize (Hmov v Hv).
    pose proof (fun e => nothing_raised _ _ v e Hrun Hv) as Hnr.
    unfold task_inv in Ht. simpl in Hmov. unfold moving in Hmov.
    destruct (pc v); try tauto; try done. by destruct (Hnr e eq_refl). }
  pose proof (Forall_lookup_1 _ _ _ _ Hmov Hi) as Hnot. simpl in Hnot.
  unfold moving in Hnot. unfold running in Hrunning.
  exists i. unfold worker_step. rewrite Hi.
  destruct (pc t); try done.
  destruct (semaphore (self st)); [lia|]. eauto.
Qed.

(** When a task is in the queue, some task can step: a running one, or
    else the first of the queue, the workers being free. *)
Lemma queued_task_or_another_can_step sched st i t :
  begin_download P o (Ok symbols) sched = Some st ->
  tasks st !! i = Some t -> queued t = true ->
  exists j st', worker_step P st j = Some st'.
Proof using Hinit Hanswers.
  intros Hrun Hi Hq.
  destruct (decide (Exists (fun u => running u = true) (tasks st))) as [Hr|Hr].
  { apply Exists_exists in Hr as (u & Hin & Hu).
    apply list_elem_of_lookup in Hin as [j Hj].
    by eapply running_task_or_another_can_step. }
  apply not_Exists_Forall in Hr; [|apply _].
  assert (Forall (fun u => running u = false) (tasks st)) as Hidle.
  { eapply Forall_impl; [exact Hr|]. intros u Hu. simpl in Hu.
    by destruct (running u). }
  destruct (list_find (fun u => queued u = true) (tasks st)) as [[j u]|] eqn:Hfind.
  - apply list_find_Some in Hfind as (Hj & Hu & Hfirst).
    exists j. unfold worker_step. rewrite Hj.
    unfold queued in Hu. destruct (pc u) eqn:Hpc; try done.
    assert (forallb (fun u => negb (queued u)) (take j (tasks st)) = true) as ->.
    { apply forallb_true_Forall, Forall_forall. intros v Hv.
      apply list_elem_of_lookup in Hv as [k Hk].
      pose proof (lookup_lt_Some _ _ _ Hk) as Hlt. rewrite length_take in Hlt.
      rewrite lookup_take_lt in Hk by lia.
      specialize (Hfirst k v Hk ltac:(lia)). by destruct (queued v). }
    pose proof (count_zero running _ Hidle) as Hrun0. unfold count in Hrun0.
    rewrite Hrun0. simpl. eauto.
  - apply list_find_None in Hfind. rewrite Forall_forall in Hfind.
    destruct (Hfind t); [|done]. apply list_elem_of_lookup. eauto.
Qed.

(** Unless [begin_download] has returned or raised, some thread can
    step. *)
Lemma some_thread_can_step sched st :
  begin_download P o (Ok symbols) sched = Some st ->
  main st <> Finished -> (forall e, main st <> Failed e) ->
  exists a st', step P st a = Some st'.
Proof using Hinit Hanswers.
  intros Hrun Hfin Hfail.
  pose proof (inv_begin_download _ _ _ _ _ Hrun) as [_ _ _ _ _ _ _ Hm].
  unfold main_inv in Hm.
  destruct (main st) as [i dfs|e|dfs| | |e] eqn:Hmain; try done.
  - destruct (tasks st !! i) as [t|] eqn:Hi.
    + assert (forall j st', worker_step P st j = Some st' ->
                exists a st', step P st a = Some st') as Hworker
        by (intros j st' H; exists (Worker j); eauto).
      assert (Forall (fun t => cancelled t = false) (tasks st)) as Hnc.
      { eapply cancelled_only_when_unwinding; [exact Hrun|..];
          intros e'; by rewrite Hmain. }
      pose proof (Forall_lookup_1 _ _ _ _ Hnc Hi) as Hnci. simpl in Hnci.
      unfold cancelled in Hnci.
      destruct (pc t) eqn:Hpc; try done.
      all: try (destruct (running_task_or_another_can_step _ _ _ _ Hrun Hi)
                  as (j & st' & Hstep);
                [unfold running; by rewrite Hpc|by eapply Hworker]).
      * destruct (queued_task_or_another_can_step _ _ _ _ Hrun Hi)
          as (j & st' & Hstep); [unfold queued; by rewrite Hpc|by eapply Hworker].
      * exists Main. simpl. unfold main_step. rewrite Hmain, Hi, Hpc. eauto.
      * exfalso. eapply nothing_raised; [exact Hrun| |exact Hpc].
        apply list_elem_of_lookup. eauto.
      * exists Main. simpl. unfold main_step. rewrite Hmain, Hi, Hpc. eauto.
    + exists Main. simpl. unfold main_step. rewrite Hmain, Hi.
      destruct Hm as (Hall & _).
      rewrite take_ge in Hall by (by apply lookup_ge_None).
      rewrite existsb_false_Forall; [eauto|].
      apply Forall_forall. intros u Hu.
      apply list_elem_of_lookup in Hu as [k Hk].
      destruct (Forall2_lookup_l _ _ _ _ _ Hall Hk) as (df & _ & Hret).
      unfold running. by rewrite Hret.
  - destruct (existsb running (tasks st)) eqn:Hex.
    + apply existsb_exists in Hex as (u & Hin & Hu).
      apply list_elem_of_In, list_elem_of_lookup in Hin as [j Hj].
      destruct (running_task_or_another_can_step _ _ _ _ Hrun Hj Hu)
        as (k & st' & Hstep).
      exists (Worker k). eauto.
    + exists Main. simpl. unfold main_step. rewrite Hmain, Hex. eauto.
  - exists Main. simpl. unfold main_step. rewrite Hmain.
    destruct (pd_concat dfs); eauto.
  - exists Main. simpl. unfold main_step. rewrite Hmain.
    destruct (to_sql _ _) as [[[]|e] eng']; eauto.
  - by destruct (Hfail e).
Qed.
End answered.

(** X2: no deadlock while the provider answers.  For a downloader the
    constructor made and a provider that answers for every symbol, a run in
    which no thread can step any more is over: [begin_download] has returned
    or it has raised.  No interleaving of the ten workers, the semaphore and
    the main thread blocks, also not when lines 44-45 raise in a task, when
    the symbol list is empty or when the write fails. *)
Theorem no_deadlock_while_provider_answers eng now o P symbols sched st :
  __init__ eng now = Ok o ->
  Forall (fun s => answers P o s = true) (make_stock_list symbols) ->
  begin_download P o (Ok symbols) sched = Some st ->
  stuck P st = true ->
  main st = Finished \/ exists e, main st = Failed e.
Proof.
  intros Hinit Hanswers Hrun Hstuck.
  assert (main st = Finished \/ (exists e, main st = Failed e) \/
          (main st <> Finished /\ forall e, main st <> Failed e))
    as [Hfin|[Hfail|[Hfin Hfail]]] by (destruct (main st); eauto); [tauto..|].
  destruct (some_thread_can_step eng now o P symbols Hinit Hanswers
              sched st Hrun Hfin Hfail) as (a & st' & Hstep).
  rewrite stuck_spec in Hstuck. by rewrite Hstuck in Hstep.
Qed.

Lemma no_deadlock_while_provider_answers_witness :
  let st := after provider_bbb_unnamed sample_self (Ok ["AAA"; "BBB"; "CCC"])
              ([Worker 0; Worker 1; Worker 2] ++ worker 6 1 ++ worker 6 0
               ++ worker 6 2 ++ [Main; Main; Main]) in
  fmap pc (tasks st) = [Returned [row_28 "AAA"]; RaisedLate (KeyError "Date");
                        Returned [row_28 "CCC"]] /\
  stuck provider_bbb_unnamed st = true /\
  (main st = Finished \/ exists e, main st = Failed e).
Proof.
  intros st. split; [vm_compute; reflexivity|].
  split; [vm_compute; reflexivity|].
  apply (no_deadlock_while_provider_answers sample_engine sample_now sample_self
           provider_bbb_unnamed ["AAA"; "BBB"; "CCC"]
           ([Worker 0; Worker 1; Worker 2] ++ worker 6 1 ++ worker 6 0
            ++ worker 6 2 ++ [Main; Main; Main]));
    try (vm_compute; reflexivity).
  repeat constructor.
Defined.

(** ** Runs that can be completed *)

(** When every task returns and the engine takes the aggregate,
    [begin_download] never raises. *)
Lemma never_raises P o symbols sched st :
  symbols <> [] ->
  Forall (fun s => succeeds P o s = true) (make_stock_list symbols) ->
  to_sql_raises (engine o) (aggregate P o (make_stock_list symbols)) = None ->
  begin_download P o (Ok symbols) sched = Some st ->
  forall e, main st <> Failed e.
Proof.
  intros Hsome Hsucc Haccept Hrun e Hmain.
  pose proof (inv_begin_download _ _ _ _ _ Hrun) as [_ _ _ Hst _ _ _ Hm].
  unfold main_inv in Hm. rewrite Hmain in Hm.
  destruct Hm as [([(t & Hin & He)|[Hnil _]] & _)|(Hcat & Hsql)].
  - apply list_elem_of_lookup in Hin as [i Hi].
    destruct (task_over _ _ _ _ _ _ _ Hrun Hi) as [_ Hexn].
    specialize (Hexn e He).
    rewrite Forall_forall in Hsucc. specialize (Hsucc (stock t)).
    unfold succeeds in Hsucc. rewrite Hexn in Hsucc.
    assert (false = true); [|done]. apply Hsucc. rewrite <- Hst.
    apply list_elem_of_fmap. exists t. split; [done|].
    apply list_elem_of_lookup. eauto.
  - rewrite Hnil in Hst. symmetry in Hst. by apply fmap_nil_inv in Hst.
  - destruct (concatenated_main_df _ _ _ _ _ Hrun Hcat) as (_ & _ & _ & Hdf).
    rewrite Hdf in Hsql. unfold to_sql in Hsql. by rewrite Haccept in Hsql.
Qed.

(** A run that is not over can be brought to its end. *)
Lemma can_finish_from eng now P o symbols sched st :
  __init__ eng now = Ok o ->
  symbols <> [] ->
  Forall (fun s => succeeds P o s = true) (make_stock_list symbols) ->
  to_sql_raises (engine o) (aggregate P o (make_stock_list symbols)) = None ->
  begin_download P o (Ok symbols) sched = Some st ->
  exists sched' st', run P sched' st = Some st' /\ main st' = Finished.
Proof.
  intros Hinit Hsome Hsucc Haccept.
  assert (Forall (fun s => answers P o s = true) (make_stock_list symbols))
    as Hanswers.
  { eapply Forall_impl; [exact Hsucc|]. intros s. apply succeeds_answers. }
  remember (steps_left st) as n eqn:Hn. revert sched st Hn.
  induction (lt_wf n) as [n _ IH]. intros sched st -> Hrun.
  assert (main st = Finished \/ main st <> Finished) as [Hfin|Hfin]
    by (destruct (main st); eauto).
  { exists [], st. done. }
  pose proof (never_raises _ _ _ _ _ Hsome Hsucc Haccept Hrun) as Hfail.
  destruct (some_thread_can_step eng now o P symbols Hinit Hanswers
              sched st Hrun Hfin Hfail) as (a & st1 & Hstep).
  assert (begin_download P o (Ok symbols) (sched ++ [a]) = Some st1) as Hrun1.
  { unfold begin_download in *. rewrite run_app, Hrun. simpl. by rewrite Hstep. }
  destruct (IH (steps_left st1) (steps_left_decreases _ _ _ _ Hstep)
              (sched ++ [a]) st1 eq_refl Hrun1) as (sched' & st' & Hrun' & Hfin').
  exists (a :: sched'), st'. simpl. rewrite Hstep. done.
Qed.

(** X3: when every task returns and the engine takes the aggregate, every
    run can be completed.  For a downloader the constructor made, at least
    one symbol, a provider whose answer for every symbol goes through lines
    40-47 and an engine that does not raise on the aggregate, every
    configuration a run reaches has a continuation of the schedule that
    ends with [begin_download] returned, and none in which it has raised. *)
Theorem every_run_can_finish eng now o P symbols sched st :
  __init__ eng now = Ok o ->
  symbols <> [] ->
  Forall (fun s => succeeds P o s = true) (make_stock_list symbols) ->
  to_sql_raises (engine o) (aggregate P o (make_stock_list symbols)) = None ->
  begin_download P o (Ok symbols) sched = Some st ->
  (forall e, main st <> Failed e) /\
  exists sched' st',
    begin_download P o (Ok symbols) (sched ++ sched') = Some st' /\
    main st' = Finished.
Proof.
  intros Hinit Hsome Hsucc Haccept Hrun.
  split; [by eapply never_raises|].
  destruct (can_finish_from eng now P o symbols sched st Hinit Hsome Hsucc Haccept Hrun)
    as (sched' & st' & Hrun' & Hfin).
  exists sched', st'. split; [|done].
  unfold begin_download in *. by rewrite run_app, Hrun.
Qed.

Lemma every_run_can_finish_witness :
  exists sched' st',
    begin_download provider_one_row sample_self (Ok ["AAA"; "BBB"])
      ((worker 3 0 ++ worker 1 1) ++ sched') = Some st' /\
    main st' = Finished.
Proof.
  apply (every_run_can_finish sample_engine sample_now sample_self provider_one_row
           ["AAA"; "BBB"] (worker 3 0 ++ worker 1 1)
           (after provider_one_row sample_self (Ok ["AAA"; "BBB"])
              (worker 3 0 ++ worker 1 1)));
    try (vm_compute; reflexivity).
  - discriminate.
  - repeat constructor.
Defined.

(** ** The table after a finished run *)



(** When lines 57-60 raise, [begin_download] is over at once. *)
Lemma begin_download_page_failed P o e sched st :
  begin_download P o (Raise e) sched = Some st ->
  sched = [] /\ st = page_failed o e.
Proof.
  unfold begin_download. destruct sched as [|[i|] sched]; simpl.
  - by intros [= <-].
  - done.
  - done.
Qed.

(** X5: the table is touched by line 72 only, and at most once.  Until the
    main thread has executed [to_sql] the engine is as the constructor
    received it.  When [begin_download] has returned, the engine accepted
    [main_df] and the table holds it as its last frame.  When
    [begin_download] has raised, either the engine is untouched, or the
    exception is the one the engine raised on [main_df] and the table is
    what the failed write left of it, which need not be the old table.
    With an engine that never raises, only a run that has returned has
    changed the table. *)
Theorem table_is_written_once_at_the_end P o page sched st :
  begin_download P o page sched = Some st ->
  (main st <> Finished -> (forall e, main st <> Failed e) ->
   engine (self st) = engine o /\
   (main st <> AtToSql -> main_df (self st) = main_df o)) /\
  (main st = Finished ->
   to_sql_raises (engine o) (main_df (self st)) = None /\
   table (engine (self st)) = table (engine o) ++ [main_df (self st)]) /\
  (forall e, main st = Failed e ->
     engine (self st) = engine o \/
     exists tbl, to_sql_raises (engine o) (main_df (self st)) = Some (e, tbl) /\
                 table (engine (self st)) = tbl) /\
  ((forall df, to_sql_raises (engine o) df = None) ->
   main st <> Finished -> engine (self st) = engine o).
Proof.
  intros Hrun. destruct page as [symbols|e0].
  - pose proof (inv_begin_download _ _ _ _ _ Hrun) as [_ _ _ _ _ _ _ Hm].
    unfold main_inv in Hm.
    assert (forall r eng', to_sql (engine o) (main_df (self st)) = (r, eng') ->
              match r with
              | Ok _ => to_sql_raises (engine o) (main_df (self st)) = None /\
                        table eng' = table (engine o) ++ [main_df (self st)]
              | Raise e => exists tbl,
                  to_sql_raises (engine o) (main_df (self st)) = Some (e, tbl) /\
                  table eng' = tbl
              end) as Hsql.
    { intros r eng'. unfold to_sql.
      destruct (to_sql_raises _ _) as [[e tbl]|]; intros [= <- <-]; simpl; eauto. }
    destruct (main st) as [i dfs|e|dfs| | |e]; simpl.
    + split; [tauto|]. split; [done|]. split; [done|]. tauto.
    + split; [tauto|]. split; [done|]. split; [done|]. tauto.
    + split; [tauto|]. split; [done|]. split; [done|]. tauto.
    + split; [tauto|]. split; [done|]. split; [done|]. tauto.
    + destruct Hm as [_ Hm]. apply Hsql in Hm.
      split; [done|]. split; [done|]. split; [done|]. done.
    + split; [intros _ H; by destruct (H e)|]. split; [done|].
      destruct Hm as [(_ & Heng & _)|[_ Hm]].
      * split; [|done]. intros e' _. by left.
      * apply Hsql in Hm as (tbl & Hraises & Htbl). split.
        -- intros e' [= <-]. right. eauto.
        -- intros Hnever. by rewrite Hnever in Hraises.
  - apply begin_download_page_failed in Hrun as [_ ->]. simpl.
    split; [intros _ H; by destruct (H e0)|]. split; [done|].
    split; [|done]. intros e' _. by left.
Qed.

Lemma table_is_written_once_at_the_end_witness :
  let st := after provider_one_row refused_self (Ok ["AAA"])
              (worker 7 0 ++ [Main; Main; Main; Main]) in
  main st = Failed (Exception "connection lost") /\
  table (engine refused_self) = [[row_28 "OLD"]] /\
  table (engine (self st)) = [] /\
  (engine (self st) = engine refused_self \/
   exists tbl,
     to_sql_raises (engine refused_self) (main_df (self st))
       = Some (Exception "connection lost", tbl) /\
     table (engine (self st)) = tbl).
Proof.
  intros st. split; [vm_compute; reflexivity|]. split; [reflexivity|].
  split; [vm_compute; reflexivity|].
  destruct (table_is_written_once_at_the_end provider_one_row refused_self
              (Ok ["AAA"]) (worker 7 0 ++ [Main; Main; Main; Main]) st)
    as (_ & _ & Hfailed & _); [vm_compute; reflexivity|].
  apply Hfailed. vm_compute; reflexivity.
Defined.

(** ** One provider call per symbol *)

Lemma calls_made_insert_same o (ts : list task) i t t' :
  ts !! i = Some t -> stock t' = stock t -> called t' = called t ->
  calls_made o (<[i := t']> ts) = calls_made o ts.
Proof.
  unfold calls_made. intros Hi Hs Hc.
  revert i Hi. induction ts as [|u ts IH]; intros [|i] Hi; simplify_eq/=.
  - by rewrite Hs, Hc.
  - by rewrite (IH _ Hi).
Qed.

Lemma calls_made_insert_new o (ts : list task) i t t' :
  ts !! i = Some t -> called t = false -> called t' = true ->
  calls_made o (<[i := t']> ts) ≡ₚ calls_made o ts ++ [call_of o (stock t')].
Proof.
  unfold calls_made. intros Hi Hc Hc'.
  revert i Hi. induction ts as [|u ts IH]; intros [|i] Hi; simplify_eq/=.
  - rewrite Hc, Hc'. simpl. apply Permutation_cons_append.
  - destruct (called u); simpl; by rewrite (IH _ Hi).
Qed.

Lemma calls_made_cancel_after o i ts :
  calls_made o (cancel_after i ts) = calls_made o ts.
Proof.
  unfold calls_made, cancel_after. rewrite <- (take_drop (S i) ts) at 3.
  rewrite !omap_app. f_equal.
  induction (drop (S i) ts) as [|t l IH]; [done|].
  csimpl. rewrite IH.
  assert (called (cancel t) = called t /\ stock (cancel t) = stock t) as [-> ->];
    [|done].
  unfold cancel, called. destruct (pc t) eqn:E; simpl; by rewrite ?E.
Qed.

Lemma calls_made_sub o (ts : list task) :
  calls_made o ts ⊆+ call_of o <$> (stock <$> ts).
Proof.
  unfold calls_made. induction ts as [|t ts IH]; [done|].
  csimpl. destruct (called t).
  - by apply submseteq_skip.
  - by apply submseteq_cons.
Qed.

Lemma calls_made_all o (ts : list task) :
  Forall (fun t => called t = true) ts ->
  calls_made o ts = call_of o <$> (stock <$> ts).
Proof.
  unfold calls_made. induction 1 as [|t ts Hc _ IH]; [done|].
  csimpl. by rewrite Hc, IH.
Qed.

(** The history of calls holds one call for each task that is past its
    download. *)
Lemma calls_are_those_made P o symbols sched st :
  begin_download P o (Ok symbols) sched = Some st ->
  calls st ≡ₚ calls_made o (tasks st).
Proof.
  intros Hrun.
  assert (inv P o (make_stock_list symbols) st /\
          calls st ≡ₚ calls_made o (tasks st)) as [_ H]; [|done].
  eapply (run_invariant P (fun st =>
            inv P o (make_stock_list symbols) st /\
            calls st ≡ₚ calls_made o (tasks st))); [| |exact Hrun].
  - clear. intros st a st' [Hinv Hc] Hstep.
    split; [by eapply inv_step|].
    destruct Hinv as [Hcur Hstart _ _ _ _ _ _].
    destruct a as [i|].
    + step_cases Hstep; simpl.
      all: try (erewrite calls_made_insert_same; [done|eassumption|done|];
                unfold called; simpl;
                match goal with H : pc _ = _ |- _ => by rewrite H end).
      all: rewrite calls_made_insert_new by
          (first [eassumption | done
                 | unfold called; match goal with H : pc _ = _ |- _ => by rewrite H end]).
      all: simpl; unfold call_of; by rewrite Hc, Hcur, Hstart.
    + step_cases Hstep; simpl; try done.
      all: by rewrite calls_made_cancel_after.
  - split; [apply inv_submit_all|]. simpl. unfold calls_made.
    induction (make_stock_list symbols) as [|s l IH]; [done|].
    by rewrite fmap_cons.
Qed.

(** X6: one provider call per symbol.  In every run the calls made so far
    are, as a multiset, part of one call per entry of the symbol list, each
    with the date range of the constructor: no symbol is fetched more often
    than it occurs in the list.  When [begin_download] has returned, the
    calls are exactly one per entry of the list. *)
Theorem each_symbol_is_fetched_once P o symbols sched st :
  begin_download P o (Ok symbols) sched = Some st ->
  calls st ⊆+ call_of o <$> make_stock_list symbols /\
  length (calls st) <= length symbols /\
  (main st = Finished -> calls st ≡ₚ call_of o <$> make_stock_list symbols).
Proof.
  intros Hrun.
  pose proof (calls_are_those_made _ _ _ _ _ Hrun) as Hc.
  pose proof (inv_begin_download _ _ _ _ _ Hrun) as [_ _ _ Hst _ _ _ Hm].
  assert (calls st ⊆+ call_of o <$> make_stock_list symbols) as Hsub.
  { rewrite Hc, <- Hst. apply calls_made_sub. }
  split; [done|]. split.
  - apply submseteq_length in Hsub.
    unfold make_stock_list in Hsub. by rewrite !length_fmap in Hsub.
  - intros Hfin. unfold main_inv in Hm. rewrite Hfin in Hm.
    destruct Hm as ((dfs & Hall & _) & _).
    rewrite Hc, <- Hst. rewrite calls_made_all; [done|].
    apply Forall_forall. intros t [k Hk]%list_elem_of_lookup.
    destruct (Forall2_lookup_l _ _ _ _ _ Hall Hk) as (df & _ & Hret).
    unfold called. by rewrite Hret.
Qed.

Lemma each_symbol_is_fetched_once_witness :
  let st := after provider_one_row sample_self (Ok ["AAA"; "BBB"])
              (worker 1 0 ++ worker 7 1 ++ worker 6 0
               ++ [Main; Main; Main; Main; Main]) in
  calls st = [call_of sample_self "BBB"; call_of sample_self "AAA"] /\
  calls st ≡ₚ [call_of sample_self "AAA"; call_of sample_self "BBB"].
Proof.
  intros st. split; [reflexivity|].
  apply (each_symbol_is_fetched_once provider_one_row sample_self
           ["AAA"; "BBB"]
           (worker 1 0 ++ worker 7 1 ++ worker 6 0
            ++ [Main; Main; Main; Main; Main]) st);
    vm_compute; reflexivity.
Defined.

(** ** Which exception [begin_download] raises *)

Lemma returned_prefix_succeeds P o (ts : list task) i dfs :
  Forall (task_inv P o) ts -> Forall2 returned (take i ts) dfs ->
  forall j s', j < i -> (stock <$> ts) !! j = Some s' -> succeeds P o s' = true.
Proof.
  intros Ht Hall j s' Hlt Hj.
  rewrite list_lookup_fmap in Hj.
  destruct (ts !! j) as [t|] eqn:Hjt; simplify_eq/=.
  assert (take i ts !! j = Some t) as Hjt' by (by rewrite lookup_take_lt).
  destruct (Forall2_lookup_l _ _ _ _ _ Hall Hjt') as (df & _ & Hret).
  pose proof (Forall_lookup_1 _ _ _ _ Ht Hjt) as Hinv.
  unfold returned in Hret. unfold task_inv in Hinv. rewrite Hret in Hinv.
  destruct Hinv as (_ & raw & HP & Hn). unfold succeeds, task_result.
  by rewrite HP, Hn.
Qed.

Lemma exception_is_task_result P o t e :
  task_inv P o t -> exception t = Some e -> task_result P o (stock t) = Raise e.
Proof.
  unfold task_inv, exception, task_result.
  destruct (pc t); try done; intros Hinv [= <-].
  - by destruct Hinv as [_ ->].
  - by destruct Hinv as (_ & raw & -> & Hn).
Qed.

(** The exception with which the main thread leaves is that of the first
    failure. *)
Lemma leaving_with_first_failure P o symbols sched st :
  begin_download P o (Ok symbols) sched = Some st ->
  forall e, main st = Unwinding e \/ main st = Failed e ->
    first_failure P o (Ok symbols) e.
Proof.
  intros Hrun.
  assert (inv P o (make_stock_list symbols) st /\
          forall e, main st = Unwinding e \/ main st = Failed e ->
            first_failure P o (Ok symbols) e) as [_ H]; [|done].
  eapply (run_invariant P (fun st =>
            inv P o (make_stock_list symbols) st /\
            forall e, main st = Unwinding e \/ main st = Failed e ->
              first_failure P o (Ok symbols) e)); [| |exact Hrun].
  - clear. intros st a st' [Hinv Hfail] Hstep.
    split; [by eapply inv_step|].
    destruct Hinv as [_ _ _ Hst Ht _ _ Hm]. unfold main_inv in Hm.
    unfold first_failure in *.
    destruct a as [i|].
    + step_cases Hstep; simpl; done.
    + step_cases Hstep; simpl; intros e' [He'|He']; simplify_eq.
      * (* the result of task i is the exception of the provider *)
        destruct Hm as (Hall & _). right. left. rewrite <- Hst.
        match goal with Hi : _ !! _ = Some ?t, Hpc : pc ?t = Raised _ |- _ =>
          pose proof (Forall_lookup_1 _ _ _ _ Ht Hi) as Hinv;
          exists i, (stock t); split; [|split];
          [by rewrite list_lookup_fmap, Hi
          |apply exception_is_task_result; [done|unfold exception; by rewrite Hpc]
          |by eapply returned_prefix_succeeds]
        end.
      * (* the result of task i is an exception of lines 44-45 *)
        destruct Hm as (Hall & _). right. left. rewrite <- Hst.
        match goal with Hi : _ !! _ = Some ?t, Hpc : pc ?t = RaisedLate _ |- _ =>
          pose proof (Forall_lookup_1 _ _ _ _ Ht Hi) as Hinv;
          exists i, (stock t); split; [|split];
          [by rewrite list_lookup_fmap, Hi
          |apply exception_is_task_result; [done|unfold exception; by rewrite Hpc]
          |by eapply returned_prefix_succeeds]
        end.
      * apply Hfail. by left.
      * (* nothing to concatenate *)
        destruct Hm as (Hall & _). left.
        destruct df_list; simplify_eq/=.
        apply Forall2_nil_inv_r in Hall. rewrite <- Hst. by rewrite Hall.
      * (* the write raised *)
        destruct Hm as ((dfs & Hall & Hcat) & Heng). right. right.
        destruct (returned_frames _ _ _ _ Ht Hall) as (-> & _ & Hsuc).
        apply pd_concat_ok in Hcat as [_ Hdf]. rewrite Hst in Hdf.
        split; [rewrite <- Hst; by apply Forall_fmap|].
        match goal with H : to_sql _ _ = _ |- _ =>
          unfold to_sql in H; rewrite Heng, Hdf in H;
          fold (aggregate P o (make_stock_list symbols)) in H;
          destruct (to_sql_raises _ _) as [[e0 tbl]|]; simplify_eq; eauto
        end.
  - split; [apply inv_submit_all|]. simpl. by intros e [?|?].
Qed.

(** X7: which exception [begin_download] raises.  When [begin_download]
    has raised, the exception is that of lines 57-60 when the page could
    not be read; otherwise it is the ValueError of the concatenation, the
    symbol list being empty, or the exception of the task of the first
    symbol, in the order of the list, whose task fails (in the provider
    call or in lines 44-45), the tasks of all symbols before it having
    returned, or else all tasks returned and it is the exception the engine
    raised on the aggregate. *)
Theorem raises_the_first_failure P o page sched st e :
  begin_download P o page sched = Some st ->
  main st = Failed e ->
  first_failure P o page e.
Proof.
  intros Hrun Hmain. destruct page as [symbols|e0].
  - eapply leaving_with_first_failure; eauto.
  - apply begin_download_page_failed in Hrun as [_ ->]. simpl in *. congruence.
Qed.

Lemma raises_the_first_failure_witness :
  first_failure provider_bbb_raises sample_self (Ok ["AAA"; "BBB"; "CCC"])
    (Exception "upstream") /\
  first_failure provider_bbb_unnamed sample_self (Ok ["AAA"; "BBB"; "CCC"])
    (KeyError "Date") /\
  first_failure provider_one_row refused_self (Ok ["AAA"])
    (Exception "connection lost") /\
  first_failure provider_one_row sample_self (Raise (Exception "no route to host"))
    (Exception "no route to host").
Proof.
  split; [|split; [|split]].
  - apply (raises_the_first_failure provider_bbb_raises sample_self
             (Ok ["AAA"; "BBB"; "CCC"])
             ([Worker 0; Worker 1; Worker 2] ++ worker 6 0 ++ worker 6 2
              ++ worker 2 1 ++ [Main; Main; Main])
             (after provider_bbb_raises sample_self (Ok ["AAA"; "BBB"; "CCC"])
                ([Worker 0; Worker 1; Worker 2] ++ worker 6 0 ++ worker 6 2
                 ++ worker 2 1 ++ [Main; Main; Main])));
      vm_compute; reflexivity.
  - apply (raises_the_first_failure provider_bbb_unnamed sample_self
             (Ok ["AAA"; "BBB"; "CCC"])
             (worker 7 0 ++ worker 7 1 ++ worker 7 2 ++ [Main; Main; Main])
             (after provider_bbb_unnamed sample_self (Ok ["AAA"; "BBB"; "CCC"])
                (worker 7 0 ++ worker 7 1 ++ worker 7 2 ++ [Main; Main; Main])));
      vm_compute; reflexivity.
  - apply (raises_the_first_failure provider_one_row refused_self (Ok ["AAA"])
             (worker 7 0 ++ [Main; Main; Main; Main])
             (after provider_one_row refused_self (Ok ["AAA"])
                (worker 7 0 ++ [Main; Main; Main; Main])));
      vm_compute; reflexivity.
  - apply (raises_the_first_failure provider_one_row sample_self
             (Raise (Exception "no route to host")) []
             (page_failed sample_self (Exception "no route to host")));
      reflexivity.
Defined.

(** ** After a provider call has raised *)

Lemma count_two f (ts : list task) i j t u :
  i <> j -> ts !! i = Some t -> ts !! j = Some u ->
  f t = true -> f u = true -> 2 <= count f ts.
Proof.
  intros Hne Hi Hj Ht Hu. revert i j Hne Hi Hj.
  induction ts as [|v ts IH]; intros [|i] [|j] Hne Hi Hj; simplify_eq/=;
    rewrite count_cons.
  - pose proof (count_pos f _ _ _ Hj Hu). rewrite Ht. simpl. lia.
  - pose proof (count_pos f _ _ _ Hi Ht). rewrite Hu. simpl. lia.
  - assert (i <> j) as Hne' by congruence.
    specialize (IH _ _ Hne' Hi Hj). lia.
Qed.

(** When the main thread leaves with an exception no task is left in the
    queue, and when [begin_download] has raised no task is running. *)
Lemma settled_when_leaving P o symbols sched st :
  begin_download P o (Ok symbols) sched = Some st ->
  (forall e, main st = Unwinding e \/ main st = Failed e ->
     Forall (fun t => queued t = false) (tasks st)) /\
  (forall e, main st = Failed e ->
     Forall (fun t => running t = false) (tasks st)).
Proof.
  intros Hrun.
  assert (inv P o (make_stock_list symbols) st /\
          (forall e, main st = Unwinding e \/ main st = Failed e ->
             Forall (fun t => queued t = false) (tasks st)) /\
          (forall e, main st = Failed e ->
             Forall (fun t => running t = false) (tasks st))) as [_ H]; [|done].
  eapply (run_invariant P (fun st =>
            inv P o (make_stock_list symbols) st /\
            (forall e, main st = Unwinding e \/ main st = Failed e ->
               Forall (fun t => queued t = false) (tasks st)) /\
            (forall e, main st = Failed e ->
               Forall (fun t => running t = false) (tasks st))));
    [| |exact Hrun].
  - clear. intros st a st' (Hinv & Hq & Hr) Hstep.
    split; [by eapply inv_step|].
    destruct Hinv as [_ _ _ _ _ _ _ Hm]. unfold main_inv in Hm.
    destruct a as [i|].
    + assert (main st' = main st /\
              exists t t', tasks st !! i = Some t /\
                tasks st' = <[i := t']> (tasks st) /\
                (queued t = false -> queued t' = false) /\
                (queued t = true \/ running t = true)) as (Hmain & t & t' & Hi & -> & Hqt & Hact).
      { step_cases Hstep; simpl; (split; [done|]); eexists _, _;
          (split; [reflexivity|]); (split; [done|]);
          unfold queued, running; simpl;
          match goal with H : pc _ = _ |- _ => rewrite H end; auto. }
      rewrite Hmain. split.
      * intros e He. specialize (Hq e He).
        apply Forall_insert; [done|]. apply Hqt.
        by apply (Forall_lookup_1 _ _ _ _ Hq Hi).
      * intros e He. specialize (Hr e He).
        specialize (Hq e (or_intror He)).
        pose proof (Forall_lookup_1 _ _ _ _ Hq Hi) as H1.
        pose proof (Forall_lookup_1 _ _ _ _ Hr Hi) as H2. simpl in H1, H2.
        destruct Hact as [H|H]; congruence.
    + assert (forall i e t, tasks st !! i = Some t -> exception t = Some e ->
                Forall2 returned (take i (tasks st)) (match main st with
                                                      | Collecting _ dfs => dfs
                                                      | _ => []
                                                      end) ->
                Forall (fun t => queued t = false) (cancel_after i (tasks st)))
        as Hcancel.
      { intros i e t Hi He Hall.
        unfold cancel_after. apply Forall_app. split.
        - apply Forall_forall. intros u [k Hk]%list_elem_of_lookup.
          pose proof (lookup_lt_Some _ _ _ Hk) as Hlt. rewrite length_take in Hlt.
          rewrite lookup_take_lt in Hk by lia.
          destruct (decide (k = i)) as [->|Hne].
          + rewrite Hi in Hk. simplify_eq. unfold queued, exception in *.
            by destruct (pc u).
          + assert (take i (tasks st) !! k = Some u) as Hk'
              by (rewrite lookup_take_lt by lia; done).
            destruct (Forall2_lookup_l _ _ _ _ _ Hall Hk') as (df & _ & Hret).
            unfold queued. by rewrite Hret.
        - apply Forall_fmap, Forall_true. intros u. simpl.
          unfold cancel, queued. destruct (pc u) eqn:E; simpl; by rewrite ?E. }
      assert (forall dfs, Forall2 returned (tasks st) dfs ->
                Forall (fun t => queued t = false) (tasks st) /\
                Forall (fun t => running t = false) (tasks st)) as Hdone.
      { intros dfs Hall.
        assert (Forall (fun t => exists df, pc t = Returned df) (tasks st)) as Hret.
        { apply Forall_forall. intros u [k Hk]%list_elem_of_lookup.
          destruct (Forall2_lookup_l _ _ _ _ _ Hall Hk) as (df & _ & Hret). eauto. }
        split; (eapply Forall_impl; [exact Hret|]);
          intros u [df Hu]; unfold queued, running; by rewrite Hu. }
      step_cases Hstep; simpl.
      all: try (split; [by intros e' [?|?]|by intros e' ?]).
      * (* the result of task i is the exception of the provider *)
        destruct Hm as (Hall & _).
        split; [|by intros e' ?]. intros _ _.
        eapply Hcancel; [eassumption| |exact Hall].
        unfold exception. by rewrite Heqt0.
      * (* the result of task i is an exception of lines 44-45 *)
        destruct Hm as (Hall & _).
        split; [|by intros e' ?]. intros _ _.
        eapply Hcancel; [eassumption| |exact Hall].
        unfold exception. by rewrite Heqt0.
      * (* the workers are done *)
        split.
        -- intros e' _. apply (Hq e). by left.
        -- intros e' _. apply Forall_forall. intros u Hu.
           destruct (running u) eqn:Hru; [|done].
           match goal with H : existsb running _ = false |- _ =>
             rewrite <- not_true_iff_false, existsb_exists in H; destruct H end.
           exists u. split; [by apply list_elem_of_In|done].
      * (* nothing to concatenate *)
        destruct Hm as (Hall & _). destruct (Hdone _ Hall). by split.
      * (* the write raised *)
        destruct Hm as ((dfs & Hall & _) & _). destruct (Hdone _ Hall). by split.
  - split; [apply inv_submit_all|]. simpl.
    split; [by intros e [?|?]|by intros e ?].
Qed.

(** A task blocked at its acquire stays where it is. *)
Lemma waiting_persists_step P st a st' j u :
  step P st a = Some st' -> semaphore (self st) = 0 ->
  tasks st !! j = Some u -> pc u = AtAcquire -> tasks st' !! j = Some u.
Proof.
  intros Hstep Hsem Hj Hpc.
  assert (cancel u = u) as Hcancel by (unfold cancel; by rewrite Hpc).
  destruct a as [k|].
  - destruct (decide (k = j)) as [->|Hne].
    + simpl in Hstep. unfold worker_step in Hstep.
      rewrite Hj, Hpc, Hsem in Hstep. done.
    + step_cases Hstep; simpl; by rewrite list_lookup_insert_ne.
  - step_cases Hstep; simpl; try done.
    all: rewrite (cancel_after_lookup _ _ _ _ Hj), Hcancel; by case_decide.
Qed.

(** With a slot leaked no provider call is made any more. *)
Lemma no_call_after_leak eng now P o symbols sched st i t e a st' :
  __init__ eng now = Ok o ->
  begin_download P o (Ok symbols) sched = Some st ->
  tasks st !! i = Some t -> pc t = Raised e ->
  step P st a = Some st' -> calls st' = calls st.
Proof.
  intros Hinit Hrun Hi Hpc Hstep.
  pose proof (slots_conserved _ _ _ _ _ _ _ Hinit Hrun) as Hslots.
  destruct (raised_is_provider_exception _ _ _ _ _ _ _ _ Hrun Hi Hpc) as [_ Hh].
  pose proof (inv_begin_download _ _ _ _ _ Hrun) as [_ _ _ _ Ht _ _ _].
  assert (forall k u, tasks st !! k = Some u -> pc u = Downloading -> False) as Hnone.
  { intros k u Hk Hu.
    pose proof (Forall_lookup_1 _ _ _ _ Ht Hk) as Hinv.
    unfold task_inv in Hinv. rewrite Hu in Hinv.
    assert (k <> i) as Hne by (intros ->; congruence).
    pose proof (count_two holds _ _ _ _ _ Hne Hk Hi Hinv Hh). lia. }
  destruct a as [k|].
  - step_cases Hstep; simpl; try done; exfalso; eauto.
  - step_cases Hstep; simpl; done.
Qed.

(** X8: a failed provider call ends all fetching.  Once the provider call
    of a task has raised, no continuation of the run makes another provider
    call; a task that was waiting at its acquire stays there for ever, and
    as long as there is one, [begin_download] neither returns nor raises:
    the program hangs. *)
Theorem no_fetch_after_a_failed_call eng now P o symbols sched st i t e sched' st' :
  __init__ eng now = Ok o ->
  begin_download P o (Ok symbols) sched = Some st ->
  tasks st !! i = Some t -> pc t = Raised e ->
  run P sched' st = Some st' ->
  calls st' = calls st /\
  forall j u, tasks st !! j = Some u -> waiting u = true ->
    tasks st' !! j = Some u /\ main st' <> Finished /\
    forall e', main st' <> Failed e'.
Proof.
  intros Hinit Hrun Hi Hpc Hrun'.
  assert (begin_download P o (Ok symbols) (sched ++ sched') = Some st') as Hall.
  { unfold begin_download in *. by rewrite run_app, Hrun. }
  assert (calls st' = calls st /\
          forall j u, tasks st !! j = Some u -> waiting u = true ->
            tasks st' !! j = Some u) as [Hcalls Hwait].
  { clear Hall. revert sched st Hrun Hi Hrun'.
    induction sched' as [|a sched' IH]; intros sched st Hrun Hi Hrun'; simpl in Hrun'.
    - by simplify_eq.
    - destruct (step P st a) as [st1|] eqn:Hstep; [|done].
      assert (begin_download P o (Ok symbols) (sched ++ [a]) = Some st1) as Hrun1.
      { unfold begin_download in *. rewrite run_app, Hrun. simpl. by rewrite Hstep. }
      pose proof (raised_persists_step _ _ _ _ _ _ _ Hstep Hi Hpc) as Hi1.
      destruct (IH _ _ Hrun1 Hi1 Hrun') as [Hc Hw].
      split.
      + rewrite Hc. by eapply no_call_after_leak.
      + intros j u Hj Hu. apply Hw; [|done].
        unfold waiting in Hu. destruct (pc u) eqn:Hpcu; try done.
        eapply waiting_persists_step; eauto.
        pose proof (slots_conserved _ _ _ _ _ _ _ Hinit Hrun).
        destruct (raised_is_provider_exception _ _ _ _ _ _ _ _ Hrun Hi Hpc) as [_ Hh].
        pose proof (count_pos holds _ _ _ Hi Hh). lia. }
  split; [done|]. intros j u Hj Hu.
  specialize (Hwait j u Hj Hu). split; [done|].
  unfold waiting in Hu. destruct (pc u) eqn:Hpcu; try done.
  split.
  - intros Hfin.
    destruct (past_the_loop_all_returned _ _ _ _ _ Hall) as [dfs Hret]; [auto|].
    destruct (Forall2_lookup_l _ _ _ _ _ Hret Hwait) as (df & _ & Hdf).
    unfold returned in Hdf. congruence.
  - intros e' Hfail.
    destruct (settled_when_leaving _ _ _ _ _ Hall) as [_ Hidle].
    pose proof (Forall_lookup_1 _ _ _ _ (Hidle e' Hfail) Hwait) as Hr.
    simpl in Hr. unfold running in Hr. by rewrite Hpcu in Hr.
Qed.

Lemma no_fetch_after_a_failed_call_witness :
  let st := after provider_aaa_raises sample_self (Ok ["AAA"; "BBB"])
              (worker 3 0 ++ worker 1 1) in
  let st' := after provider_aaa_raises sample_self (Ok ["AAA"; "BBB"])
               (worker 3 0 ++ worker 1 1 ++ [Main]) in
  calls st' = [call_of sample_self "AAA"] /\
  tasks st' !! 1 = Some (mk_task "BBB" AtAcquire false) /\
  main st' = Unwinding (Exception "upstream") /\
  stuck provider_aaa_raises st' = true.
Proof.
  intros st st'.
  destruct (no_fetch_after_a_failed_call sample_engine sample_now provider_aaa_raises
              sample_self ["AAA"; "BBB"] (worker 3 0 ++ worker 1 1) st 0
              (mk_task "AAA" (Raised (Exception "upstream")) true)
              (Exception "upstream") [Main] st')
    as [Hcalls Hwait]; [vm_compute; reflexivity..|].
  split; [rewrite Hcalls; reflexivity|].
  split; [by apply (Hwait 1 (mk_task "BBB" AtAcquire false))|].
  split; reflexivity.
Defined.

(** ** The rewriting of the symbols *)

Lemma str_replace_idem old new s :
  old <> new ->
  str_replace old new (str_replace old new s) = str_replace old new s.
Proof.
  intros Hne. induction s as [|c s IH]; simpl; [done|]. rewrite IH. f_equal.
  destruct (Ascii.eqb c old) eqn:E; [|by rewrite E].
  assert (Ascii.eqb new old = false) as ->; [|done].
  apply Ascii.eqb_neq. congruence.
Qed.

Lemma str_replace_id old new s :
  contains old s = false -> str_replace old new s = s.
Proof.
  induction s as [|c s IH]; simpl; [done|].
  intros [Hc Hs]%orb_false_iff. by rewrite Hc, IH.
Qed.

(** X9: the rewriting of line 60 keeps the list in shape.  The rewritten
    list has one symbol per raw ticker, each as long as the raw one; a
    ticker without a dot is passed on unchanged; and rewriting a rewritten
    list changes nothing. *)
Theorem rewriting_keeps_the_list_in_shape symbols :
  length (make_stock_list symbols) = length symbols /\
  Forall2 (fun s s' => String.length s' = String.length s)
          symbols (make_stock_list symbols) /\
  Forall2 (fun s s' => contains "."%char s = false -> s' = s)
          symbols (make_stock_list symbols) /\
  make_stock_list (make_stock_list symbols) = make_stock_list symbols.
Proof.
  unfold make_stock_list. split; [by rewrite length_fmap|].
  split; [|split].
  - apply Forall2_fmap_r, Forall_Forall2_diag, Forall_true.
    intros s. apply str_replace_length.
  - apply Forall2_fmap_r, Forall_Forall2_diag, Forall_true.
    intros s Hs. by apply str_replace_id.
  - rewrite <- list_fmap_compose. apply list_fmap_ext. intros _ s _. simpl.
    by apply str_replace_idem.
Qed.

(** ** The report of the elapsed time *)

Lemma timedelta_new_seconds days seconds microseconds :
  td_seconds (timedelta_new days seconds microseconds)
  = ((seconds + microseconds / 1000000) mod 86400)%Z.
Proof.
  unfold timedelta_new. simpl.
  assert ((microseconds mod 1000000) / 1000000 = 0)%Z as ->
    by (apply Z.div_small, Z.mod_pos_bound; lia).
  rewrite Z.add_0_r. by rewrite <- Z.add_mod by lia.
Qed.

Lemma elapsed_whole_seconds a b :
  ((microseconds_at a - microseconds_at b) / 1000000
   = (toordinal a - toordinal b) * 86400
     + (seconds_of_day a - seconds_of_day b
        + (microsecond a - microsecond b) / 1000000))%Z.
Proof.
  unfold microseconds_at.
  replace ((toordinal a * 86400 + seconds_of_day a) * 1000000 + microsecond a
           - ((toordinal b * 86400 + seconds_of_day b) * 1000000 + microsecond b))%Z
    with (((toordinal a - toordinal b) * 86400
           + (seconds_of_day a - seconds_of_day b)) * 1000000
          + (microsecond a - microsecond b))%Z by lia.
  rewrite Z.div_add_l by lia. lia.
Qed.

(** X10: the message of line 77 drops whole days.  The seconds reported are
    below 60 and the minutes below 1440; together they are the whole
    seconds elapsed since the constructor read the clock, modulo one day:
    for a download of less than a day the message is the elapsed time in
    whole seconds, for a longer one the days are missing. *)
Theorem time_report_is_modulo_one_day o now' :
  let minutes := fst (time_report o now') in
  let seconds := snd (time_report o now') in
  let elapsed := (microseconds_at now' - microseconds_at (current_time o))%Z in
  (0 <= seconds < 60)%Z /\ (0 <= minutes < 1440)%Z /\
  (minutes * 60 + seconds = (elapsed / 1000000) mod 86400)%Z /\
  ((0 <= elapsed < 86400 * 1000000)%Z ->
   (minutes * 60 + seconds = elapsed / 1000000)%Z).
Proof.
  intros minutes seconds elapsed.
  assert (exists s, (0 <= s < 86400)%Z /\ minutes = (s / 60)%Z /\
                    seconds = (s mod 60)%Z /\
                    s = ((elapsed / 1000000) mod 86400)%Z)
    as (s & Hs & -> & -> & Hel).
  { exists (td_seconds (datetime_sub now' (current_time o))).
    split; [|split; [done|split; [done|]]].
    - unfold datetime_sub. rewrite timedelta_new_seconds.
      apply Z.mod_pos_bound. lia.
    - unfold datetime_sub, elapsed.
      rewrite timedelta_new_seconds, elapsed_whole_seconds.
      symmetry. rewrite Z.add_comm. apply Z.mod_add. lia. }
  assert (s / 60 * 60 + s mod 60 = s)%Z as Hdm
    by (rewrite (Z.div_mod s 60) at 3 by lia; lia).
  split; [apply Z.mod_pos_bound; lia|].
  split; [split; [apply Z.div_pos; lia|apply Z.div_lt_upper_bound; lia]|].
  split; [by rewrite Hdm|].
  intros Hday. rewrite Hdm, Hel. apply Z.mod_small.
  split; [apply Z.div_pos; lia|apply Z.div_lt_upper_bound; lia].
Qed.

(** ** The span of the date range *)

Example toordinal_sample_now : toordinal sample_now = 738946%Z.
Proof. reflexivity. Qed.

Example time_report_next_day :
  time_report sample_self (mk_datetime 2024 3 2 10 16 5 250) = (1, 5)%Z.
Proof. reflexivity. Qed.

Lemma days_before_year_span y :
  (11 * 365 + 1 <= days_before_year y - days_before_year (y - 11)
   <= 11 * 365 + 3)%Z.
Proof. unfold days_before_year. Z.div_mod_to_equations. lia. Qed.

Lemma toordinal_minus_11_years y m d h mi s us :
  (4016 <= toordinal (mk_datetime y m d h mi s us)
           - toordinal (mk_datetime (y - 11) m d 0 0 0 0) <= 4018)%Z.
Proof.
  unfold toordinal, days_before_month. cbn [year month day].
  match goal with |- context [nth ?a ?b ?c] =>
    generalize (nth a b c); intros tbl end.
  unfold days_before_year, is_leap.
  destruct (2 <? m)%Z; simpl.
  - destruct (Z.eqb_spec (y mod 4) 0), (Z.eqb_spec (y mod 100) 0),
      (Z.eqb_spec (y mod 400) 0), (Z.eqb_spec ((y - 11) mod 4) 0),
      (Z.eqb_spec ((y - 11) mod 100) 0), (Z.eqb_spec ((y - 11) mod 400) 0);
      simpl; Z.div_mod_to_equations; lia.
  - Z.div_mod_to_equations. lia.
Qed.

(** X11: the date range spans eleven years.  For every downloader the
    constructor makes from a well-formed clock reading, the end of the date
    range lies 4016 to 4018 days after its start (eleven years with one to
    three leap days) and the start is at midnight: the range requested from
    the provider is never empty or reversed. *)
Theorem date_range_spans_eleven_years eng now o :
  valid_datetime now = true ->
  __init__ eng now = Ok o ->
  (4016 <= toordinal (current_time o) - toordinal (start_time o) <= 4018)%Z /\
  seconds_of_day (start_time o) = 0%Z /\ microsecond (start_time o) = 0%Z /\
  (microseconds_at (start_time o) < microseconds_at (current_time o))%Z.
Proof.
  intros Hvalid Hinit.
  apply valid_datetime_fields in Hvalid as (_ & _ & _ & Hh & Hmi & Hs & Hus).
  apply init_ok in Hinit. subst o. simpl.
  destruct now as [y m d h mi s us]. simpl in *.
  pose proof (toordinal_minus_11_years y m d h mi s us) as Hspan.
  split; [done|]. split; [done|]. split; [done|].
  unfold microseconds_at, seconds_of_day. simpl. lia.
Qed.

Lemma date_range_spans_eleven_years_witness :
  (toordinal sample_now - toordinal (start_time sample_self) = 4018)%Z /\
  (4016 <= toordinal sample_now - toordinal (start_time sample_self) <= 4018)%Z.
Proof.
  split; [reflexivity|].
  apply (date_range_spans_eleven_years sample_engine sample_now sample_self);
    reflexivity.
Defined.

(** ** A witness for the steps of [download_stock] *)

Lemma download_stock_returns_witness :
  let st := after provider_one_row sample_self (Ok ["AAA"; "BBB"])
              (worker 1 0 ++ worker 1 1) in
  let st0 := after provider_bbb_unnamed sample_self (Ok ["AAA"; "BBB"])
               (worker 1 0 ++ worker 1 1) in
  (exists k st',
     run provider_one_row (worker k 0) st = Some st' /\
     tasks st' !! 0 = Some (mk_task "AAA" (Returned [row_28 "AAA"]) false) /\
     semaphore (self st') = 1 /\
     download_stock provider_one_row sample_self "AAA"
       = Some (Ok [row_28 "AAA"], self st')) /\
  (exists k st',
     run provider_bbb_unnamed (worker k 1) st0 = Some st' /\
     tasks st' !! 1 = Some (mk_task "BBB" (RaisedLate (KeyError "Date")) false) /\
     semaphore (self st') = 1 /\
     download_stock provider_bbb_unnamed sample_self "BBB"
       = Some (Raise (KeyError "Date"), self st')).
Proof.
  intros st st0. split.
  - destruct (download_stock_returns provider_one_row st 0
                (mk_task "AAA" AtAcquire false) 0
                (prices_frame [mk_raw day_28 sample_px]))
      as (k & st' & _ & Hrun & _ & Hi & Hsem & Hds);
      [vm_compute; reflexivity..|].
    exists k, st'. split; [exact Hrun|]. split; [exact Hi|].
    split; [exact Hsem|exact Hds].
  - destruct (download_stock_returns provider_bbb_unnamed st0 1
                (mk_task "BBB" AtAcquire false) 0 (mk_raw_frame None []))
      as (k & st' & _ & Hrun & _ & Hi & Hsem & Hds);
      [vm_compute; reflexivity..|].
    exists k, st'. split; [exact Hrun|]. split; [exact Hi|].
    split; [exact Hsem|exact Hds].
Defined.
